(** * GeminiHelper: the focus-tracking overlay of [src/content/index.tsx]

    The component is a React function component.  Three facts about that
    shape drive the whole embedding:

    - every function of the component body ([processText], [hideHelper],
      [handleButtonClick], ...) is a closure over the constants
      [currentElement], [isMenuOpen], [isProcessing] and [geminiApiKey] of the
      render that created it.  A call to [setIsMenuOpen] stores the value the
      NEXT render will see; it does not change the constant of a closure that
      already exists.  The closure constants are the record [Closure]; the
      cells written by the setters are the [state_*] fields of [World];
    - [helperButtonRef] and [helperMenuRef] are mutable refs shared by every
      render, and the two controls they point to are DOM nodes; both live in
      [World];
    - the listeners are installed by a [useEffect] whose dependency list is
      [[geminiApiKey]], so for a fixed key they are the closures of the first
      render for the whole life of the component ([mount], [step]).

    When the key prop changes the effect runs again: its cleanup removes the
    listeners, and the effect creates two new controls and installs the
    closures of the render of that moment; the old controls stay in the
    document.  [System] and [step] follow one run of the effect; [Component]
    and [act] follow the component across key changes, each suspended call
    with its own closure.  Every lemma about a single function is stated for
    an arbitrary [Closure] and so covers the listeners of any render.

    The [async] function [processText] is cut at its two [await]s. *)

From Stdlib Require Import ZArith String List Bool Lia.
From stdpp Require Import base option gmap strings list.
Import ListNotations.

Local Open Scope string_scope.
Local Open Scope Z_scope.

(** ** The host page *)

(** The DOM interface an element implements, as far as [instanceof] in
    [processText] can tell. *)
Inductive Interface : Type :=
  | HTMLTextAreaElement
  | HTMLInputElement
  | HTMLOtherElement.

(** An element of the page.  [node] is the object identity compared by
    [===]; the other fields are what the DOM reports for that node.
    [inputType] is the state of the [type] attribute (the component never
    reads it).  [inHelperButton] and [inHelperMenu] are the answers of
    [closest(".gemini-helper-button")] and [closest(".gemini-helper-menu")]
    (non-null or null). *)
Record Element : Type := mkElement {
  node : nat;
  tagName : string;
  inputType : string;
  isContentEditable : bool;
  role : option string;
  interface : Interface;
  inHelperButton : bool;
  inHelperMenu : bool
}.

(** [a === b] on two element references. *)
Definition same_node (a b : Element) : bool := Nat.eqb (node a) (node b).

(** [a !== cur] where [cur] may be [null]; an element is never [null]. *)
Definition differs (a : Element) (cur : option Element) : bool :=
  match cur with
  | None => true
  | Some el => negb (same_node a el)
  end.

(** The two fields of [getBoundingClientRect()] that are read. *)
Record DOMRect : Type := mkRect { rect_top : Z; rect_right : Z }.

(** The trigger control ([button.gemini-helper-button]).  Pixel lengths are
    kept as integers (the source computes them as JS numbers); a style
    property that was never assigned is [None].  The statements below repeat
    the source's expressions on them and rely on no law of arithmetic. *)
Record Button : Type := mkButton {
  b_textContent : string;
  b_loading : bool;          (* classList has "gemini-helper-loading" *)
  b_display : string;
  b_left : option Z;
  b_top : option Z;
  b_zIndex : string
}.

(** The menu ([div.gemini-helper-menu]) with its two items. *)
Record Menu : Type := mkMenu {
  m_display : string;
  m_left : option Z;
  m_top : option Z;
  m_zIndex : string
}.

(** The closure constants of one render. *)
Record Closure : Type := mkClosure {
  currentElement : option Element;
  isMenuOpen : bool;
  isProcessing : bool;
  geminiApiKey : string
}.

(** What the component does to the outside, most recent first. *)
Inductive Effect : Type :=
  | SetCurrentElement (n : nat)
  | SetIsMenuOpen (b : bool)
  | SetIsProcessing (b : bool)
  | Alert (msg : string)
  | ConsoleError
  | Fetch (url text : string)
  | SetTimeout (ms : nat).

(** Everything mutable: the React state cells, the refs with the controls
    they point to, the part of the document the component reads and writes,
    the pending timers (each with the closure its callback was created in)
    and the log of effects. *)
Record World : Type := mkWorld {
  state_currentElement : option Element;
  state_isMenuOpen : bool;
  state_isProcessing : bool;
  helperButtonRef : option Button;
  helperMenuRef : option Menu;
  body : Element;
  activeElement : Element;
  textContent : gmap nat string;
  value : gmap nat string;
  rects : gmap nat DOMRect;
  scrollX : Z;
  scrollY : Z;
  timers : list Closure;
  log : list Effect
}.

(** ** Field updates *)

Definition with_currentElement (el : Element) (w : World) : World :=
  mkWorld (Some el) (state_isMenuOpen w) (state_isProcessing w)
    (helperButtonRef w) (helperMenuRef w) (body w) (activeElement w)
    (textContent w) (value w) (rects w) (scrollX w) (scrollY w)
    (timers w) (log w).

Definition with_isMenuOpen (b : bool) (w : World) : World :=
  mkWorld (state_currentElement w) b (state_isProcessing w)
    (helperButtonRef w) (helperMenuRef w) (body w) (activeElement w)
    (textContent w) (value w) (rects w) (scrollX w) (scrollY w)
    (timers w) (log w).

Definition with_isProcessing (b : bool) (w : World) : World :=
  mkWorld (state_currentElement w) (state_isMenuOpen w) b
    (helperButtonRef w) (helperMenuRef w) (body w) (activeElement w)
    (textContent w) (value w) (rects w) (scrollX w) (scrollY w)
    (timers w) (log w).

Definition with_button (b : option Button) (w : World) : World :=
  mkWorld (state_currentElement w) (state_isMenuOpen w) (state_isProcessing w)
    b (helperMenuRef w) (body w) (activeElement w)
    (textContent w) (value w) (rects w) (scrollX w) (scrollY w)
    (timers w) (log w).

Definition with_menu (m : option Menu) (w : World) : World :=
  mkWorld (state_currentElement w) (state_isMenuOpen w) (state_isProcessing w)
    (helperButtonRef w) m (body w) (activeElement w)
    (textContent w) (value w) (rects w) (scrollX w) (scrollY w)
    (timers w) (log w).

Definition with_activeElement (el : Element) (w : World) : World :=
  mkWorld (state_currentElement w) (state_isMenuOpen w) (state_isProcessing w)
    (helperButtonRef w) (helperMenuRef w) (body w) el
    (textContent w) (value w) (rects w) (scrollX w) (scrollY w)
    (timers w) (log w).

Definition with_textContent (t : gmap nat string) (w : World) : World :=
  mkWorld (state_currentElement w) (state_isMenuOpen w) (state_isProcessing w)
    (helperButtonRef w) (helperMenuRef w) (body w) (activeElement w)
    t (value w) (rects w) (scrollX w) (scrollY w)
    (timers w) (log w).

Definition with_value (v : gmap nat string) (w : World) : World :=
  mkWorld (state_currentElement w) (state_isMenuOpen w) (state_isProcessing w)
    (helperButtonRef w) (helperMenuRef w) (body w) (activeElement w)
    (textContent w) v (rects w) (scrollX w) (scrollY w)
    (timers w) (log w).

Definition with_scroll (x y : Z) (w : World) : World :=
  mkWorld (state_currentElement w) (state_isMenuOpen w) (state_isProcessing w)
    (helperButtonRef w) (helperMenuRef w) (body w) (activeElement w)
    (textContent w) (value w) (rects w) x y
    (timers w) (log w).

Definition with_timers (ts : list Closure) (w : World) : World :=
  mkWorld (state_currentElement w) (state_isMenuOpen w) (state_isProcessing w)
    (helperButtonRef w) (helperMenuRef w) (body w) (activeElement w)
    (textContent w) (value w) (rects w) (scrollX w) (scrollY w)
    ts (log w).

Definition emit (e : Effect) (w : World) : World :=
  mkWorld (state_currentElement w) (state_isMenuOpen w) (state_isProcessing w)
    (helperButtonRef w) (helperMenuRef w) (body w) (activeElement w)
    (textContent w) (value w) (rects w) (scrollX w) (scrollY w)
    (timers w) (e :: log w).

(** ** Primitives of React and of the page *)

Definition setCurrentElement (el : Element) (w : World) : World :=
  emit (SetCurrentElement (node el)) (with_currentElement el w).

Definition setIsMenuOpen (b : bool) (w : World) : World :=
  emit (SetIsMenuOpen b) (with_isMenuOpen b w).

Definition setIsProcessing (b : bool) (w : World) : World :=
  emit (SetIsProcessing b) (with_isProcessing b w).

Definition alert (msg : string) (w : World) : World := emit (Alert msg) w.

Definition console_error (w : World) : World := emit ConsoleError w.

Definition fetch (url text : string) (w : World) : World :=
  emit (Fetch url text) w.

(** [setTimeout(callback, ms)]: the callback is kept with its closure. *)
Definition setTimeout (c : Closure) (ms : nat) (w : World) : World :=
  emit (SetTimeout ms) (with_timers (timers w ++ [c]) w).

(** [el.textContent] and [el.value] of a node, [""] where nothing is stored
    (an [input] has no child text, so its [textContent] is [""]).  The
    [textContent] store has one entry per element and is meant for the
    elements the component reads and writes as text; it does not follow the
    text of an element through that of its descendants, and the text of the
    two controls is kept in their own records. *)
Definition textContentOf (w : World) (el : Element) : string :=
  default "" (textContent w !! node el).

Definition valueOf (w : World) (el : Element) : string :=
  default "" (value w !! node el).

Definition getBoundingClientRect (w : World) (el : Element) : DOMRect :=
  default (mkRect 0 0) (rects w !! node el).

(** Run [f] on the trigger, if its ref is set. *)
Definition on_button (f : Button -> Button) (w : World) : World :=
  match helperButtonRef w with
  | Some b => with_button (Some (f b)) w
  | None => w
  end.

Definition button_display (d : string) (b : Button) : Button :=
  mkButton (b_textContent b) (b_loading b) d (b_left b) (b_top b) (b_zIndex b).

Definition button_content (t : string) (loading : bool) (b : Button) : Button :=
  mkButton t loading (b_display b) (b_left b) (b_top b) (b_zIndex b).

Definition button_place (left top : Z) (b : Button) : Button :=
  mkButton (b_textContent b) (b_loading b) "flex" (Some left) (Some top)
    "9999999".

Definition menu_display (d : string) (m : Menu) : Menu :=
  mkMenu d (m_left m) (m_top m) (m_zIndex m).

Definition menu_place (left top : Z) (m : Menu) : Menu :=
  mkMenu (m_display m) (Some left) (Some top) "9999999".

(** ** The component body *)

Definition createHelperButton : Button :=
  mkButton "G" false "none" None None "".

Definition createHelperMenu : Menu :=
  mkMenu "none" None None "".

Definition grammarPrompt : string :=
  "correct grammar, only reply with the corrected phrase, without your comments. respond without parentheses on left and right sides. keep the original language".

Definition clarityPrompt : string :=
  "rewrite for clarity, respond with ONLY the text, rewritten for clarity, no comments; keep the original language".

Definition endpoint (key : string) : string :=
  "https://generativelanguage.googleapis.com/v1beta/models/gemini-1.5-flash:generateContent?key=" ++ key.

Definition buttonSize : Z := 32.

Definition updateHelperPosition (element : Element) (w : World) : World :=
  match helperButtonRef w, helperMenuRef w with
  | Some b, Some m =>
      let rect := getBoundingClientRect w element in
      let top := rect_top rect + scrollY w in
      let left := rect_right rect + scrollX w in
      with_menu (Some (menu_place (left - 10) (top + buttonSize - 8) m))
        (with_button (Some (button_place (left - buttonSize) top b)) w)
  | _, _ => w
  end.

Definition showHelper (element : Element) (w : World) : World :=
  updateHelperPosition element (setCurrentElement element w).

Definition openMenu (w : World) : World :=
  match helperMenuRef w with
  | None => w
  | Some m => with_menu (Some (menu_display "block" m)) (setIsMenuOpen true w)
  end.

Definition closeMenu (w : World) : World :=
  match helperMenuRef w with
  | None => w
  | Some m => with_menu (Some (menu_display "none" m)) (setIsMenuOpen false w)
  end.

Definition hideHelper (c : Closure) (w : World) : World :=
  if isMenuOpen c || isProcessing c then w
  else closeMenu (on_button (button_display "none") w).

(** The condition of [handleElementFocus], as written. *)
Definition focusable (element : Element) : bool :=
  String.eqb (tagName element) "TEXTAREA"
  || String.eqb (tagName element) "INPUT"
  || isContentEditable element
  || match role element with
     | Some r => String.eqb r "textbox"
     | None => false
     end.

Definition handleElementFocus (element : Element) (w : World) : World :=
  if focusable element then showHelper element w else w.

(** The callback handed to [setTimeout] by [handleElementBlur]. *)
Definition blurTimeout (c : Closure) (w : World) : World :=
  if negb (isMenuOpen c) && negb (isProcessing c) then hideHelper c w else w.

Definition handleElementBlur (c : Closure) (relatedTarget : option Element)
    (w : World) : World :=
  match relatedTarget with
  | Some r =>
      if inHelperButton r || inHelperMenu r then w
      else setTimeout c 100 w
  | None => setTimeout c 100 w
  end.

Definition helperShown (w : World) : bool :=
  match helperButtonRef w with
  | Some b => negb (String.eqb (b_display b) "none")
  | None => false
  end.

Definition handleScroll (c : Closure) (w : World) : World :=
  match currentElement c with
  | Some el => if helperShown w then updateHelperPosition el w else w
  | None => w
  end.

Definition handleResize (c : Closure) (w : World) : World :=
  match currentElement c with
  | Some el => if helperShown w then updateHelperPosition el w else w
  | None => w
  end.

Definition handleDocumentClick (c : Closure) (target : Element) (w : World)
    : World :=
  if negb (inHelperButton target) && negb (inHelperMenu target) then
    let w1 := closeMenu w in
    if differs (activeElement w1) (currentElement c) then hideHelper c w1
    else w1
  else w.

Definition handleButtonClick (c : Closure) (w : World) : World :=
  if isMenuOpen c then closeMenu w else openMenu w.

(** *** [processText], cut at its two [await]s *)

(** Where a suspended [processText] waits. *)
Inductive Stage : Type :=
  | AwaitFetch      (* await fetch(...) *)
  | AwaitJson.      (* await response.json() *)

(** How [fetch] settles: the promise rejects, or it resolves to a response
    with the given [ok]. *)
Inductive FetchResult : Type :=
  | FetchRejected
  | FetchResponse (ok : bool).

(** How [response.json()] settles: the promise rejects, or it resolves to a
    value in which [data.candidates[0].content.parts[0].text] is the given
    string ([None]: evaluating that path throws). *)
Inductive JsonResult : Type :=
  | JsonRejected
  | JsonParsed (text : option string).

Definition isFormControl (el : Element) : bool :=
  match interface el with
  | HTMLTextAreaElement | HTMLInputElement => true
  | HTMLOtherElement => false
  end.

(** Lines 85-89: [currentElement.value = improvedText] for a text area or an
    input, [currentElement.textContent = improvedText] otherwise. *)
Definition assignImprovedText (el : Element) (improvedText : string)
    (w : World) : World :=
  if isFormControl el then
    with_value (<[node el := improvedText]> (value w)) w
  else
    with_textContent (<[node el := improvedText]> (textContent w)) w.

(** The [finally] block; [el] is the closure's [currentElement]. *)
Definition processText_finally (c : Closure) (el : Element) (w : World)
    : World :=
  let w1 := on_button (button_content "G" false) w in
  let w2 := setIsProcessing false w1 in
  if differs (activeElement w2) (Some el) then hideHelper c w2 else w2.

(** The [catch] block followed by [finally]. *)
Definition processText_catch (c : Closure) (el : Element) (w : World)
    : World :=
  processText_finally c el
    (alert "Error processing text. Please try again." (console_error w)).

(** From the call up to the first [await] (or to the end, when the function
    returns before it).  The second component tells whether the call is now
    suspended, and on which element. *)
Definition processText (c : Closure) (prompt : string) (w : World)
    : World * option (Element * Stage) :=
  match currentElement c with
  | None => (w, None)
  | Some el =>
      let text := textContentOf w el in
      if String.eqb text "" then (w, None)
      else
        let w1 := setIsProcessing true w in
        let w2 := on_button (button_content "" true) w1 in
        let w3 := closeMenu w2 in
        if String.eqb (geminiApiKey c) "" then
          (processText_finally c el
             (alert "Please set your Gemini API key in the extension settings"
                w3),
           None)
        else
          (fetch (endpoint (geminiApiKey c)) (prompt ++ ": " ++ text) w3,
           Some (el, AwaitFetch))
  end.

(** The continuation after [await fetch(...)]. *)
Definition resumeFetch (c : Closure) (el : Element) (r : FetchResult)
    (w : World) : World * option (Element * Stage) :=
  match r with
  | FetchRejected => (processText_catch c el w, None)
  | FetchResponse false => (processText_catch c el w, None)
  | FetchResponse true => (w, Some (el, AwaitJson))
  end.

(** The continuation after [await response.json()]. *)
Definition resumeJson (c : Closure) (el : Element) (r : JsonResult)
    (w : World) : World :=
  match r with
  | JsonRejected => processText_catch c el w
  | JsonParsed None => processText_catch c el w
  | JsonParsed (Some improvedText) =>
      processText_finally c el (assignImprovedText el improvedText w)
  end.

(** One whole call with nothing dispatched in between. *)
Definition processText_run (c : Closure) (prompt : string)
    (fr : FetchResult) (jr : JsonResult) (w : World) : World :=
  match processText c prompt w with
  | (w1, None) => w1
  | (w1, Some (el, _)) =>
      match resumeFetch c el fr w1 with
      | (w2, None) => w2
      | (w2, Some (el2, _)) => resumeJson c el2 jr w2
      end
  end.

(** ** The mounted component *)

(** The closure constants of the first render: the [useState] initial
    values and the key prop. *)
Definition firstRender (key : string) : Closure :=
  mkClosure None false false key.

(** The page before the component mounts. *)
Definition initialWorld (bodyEl active : Element)
    (texts values : gmap nat string) (boxes : gmap nat DOMRect)
    (sx sy : Z) : World :=
  mkWorld None false false None None bodyEl active texts values boxes sx sy
    [] [].

(** The body of the effect: create both controls, fill the refs, install
    the listeners (they are the closures of the render that ran the effect,
    see [System]), then look at the element that already has focus. *)
Definition installControls (w : World) : World :=
  with_menu (Some createHelperMenu) (with_button (Some createHelperButton) w).

Definition mountEffect (w : World) : World :=
  let w1 := installControls w in
  if negb (same_node (activeElement w1) (body w1)) then
    handleElementFocus (activeElement w1) w1
  else w1.

(** The component during one run of the effect: the closure its listeners
    and menu items were created in, the page, and the suspended
    [processText] calls. *)
Record System : Type := mkSystem {
  handlers : Closure;
  page : World;
  inflight : list (Element * Stage)
}.

Definition mount (key : string) (w : World) : System :=
  mkSystem (firstRender key) (mountEffect w) [].

Inductive MenuItem : Type :=
  | CorrectGrammar
  | ImproveClarity.

Definition promptOf (i : MenuItem) : string :=
  match i with
  | CorrectGrammar => grammarPrompt
  | ImproveClarity => clarityPrompt
  end.

Inductive Reply : Type :=
  | FetchSettled (r : FetchResult)
  | JsonSettled (r : JsonResult).

(** What the event loop can dispatch.  A click on the trigger or on a menu
    item stops propagation, so it never reaches the document listener;
    [Click] is a click that does. *)
Inductive Event : Type :=
  | FocusIn (target : Element)
  | FocusOut (relatedTarget : option Element)
  | Click (target : Element)
  | ButtonClick
  | MenuItemClick (i : MenuItem)
  | Scroll (x y : Z)
  | Resize
  | TimerFires
  | Settles (i : nat) (r : Reply).

Definition step (s : System) (ev : Event) : System :=
  let c := handlers s in
  let w := page s in
  match ev with
  | FocusIn target =>
      mkSystem c (handleElementFocus target (with_activeElement target w))
        (inflight s)
  | FocusOut relatedTarget =>
      mkSystem c
        (handleElementBlur c relatedTarget (with_activeElement (body w) w))
        (inflight s)
  | Click target => mkSystem c (handleDocumentClick c target w) (inflight s)
  | ButtonClick => mkSystem c (handleButtonClick c w) (inflight s)
  | MenuItemClick i =>
      match processText c (promptOf i) w with
      | (w1, None) => mkSystem c w1 (inflight s)
      | (w1, Some k) => mkSystem c w1 (inflight s ++ [k])
      end
  | Scroll x y => mkSystem c (handleScroll c (with_scroll x y w)) (inflight s)
  | Resize => mkSystem c (handleResize c w) (inflight s)
  | TimerFires =>
      match timers w with
      | [] => s
      | t :: ts => mkSystem c (blurTimeout t (with_timers ts w)) (inflight s)
      end
  | Settles i r =>
      match inflight s !! i, r with
      | Some (el, AwaitFetch), FetchSettled fr =>
          match resumeFetch c el fr w with
          | (w1, None) => mkSystem c w1 (delete i (inflight s))
          | (w1, Some k) => mkSystem c w1 (<[i := k]> (inflight s))
          end
      | Some (el, AwaitJson), JsonSettled jr =>
          mkSystem c (resumeJson c el jr w) (delete i (inflight s))
      | _, _ => s
      end
  end.

Definition run (s : System) (evs : list Event) : System :=
  fold_left step evs s.

(** ** Observations *)

(** The trigger control is on screen. *)
Definition triggerShown (w : World) : bool := helperShown w.

(** The menu is on screen. *)
Definition menuShown (w : World) : bool :=
  match helperMenuRef w with
  | Some m => String.eqb (m_display m) "block"
  | None => false
  end.

Definition alertsOf (l : list Effect) : list string :=
  omap (fun e => match e with Alert m => Some m | _ => None end) l.

Definition fetchesOf (l : list Effect) : list (string * string) :=
  omap (fun e => match e with Fetch u t => Some (u, t) | _ => None end) l.

Definition isBusyCall (e : Effect) : bool :=
  match e with
  | SetIsProcessing true => true
  | _ => false
  end.

(** How many times [setIsProcessing(true)] was called. *)
Definition busyCalls (l : list Effect) : nat :=
  length (List.filter isBusyCall l).

(** A settled request that did not deliver a text. *)
Definition fetchFailed (r : FetchResult) : bool :=
  match r with
  | FetchResponse true => false
  | _ => true
  end.

Definition jsonFailed (r : JsonResult) : bool :=
  match r with
  | JsonParsed (Some _) => false
  | _ => true
  end.

(** ** The specification's wording of eligibility, for comparison *)




(** Both controls exist, and the menu is on screen exactly when the state
    cell says it is open. *)
Definition overlayConsistent (w : World) : Prop :=
  helperButtonRef w <> None
  /\ helperMenuRef w <> None
  /\ menuShown w = state_isMenuOpen w.

(** The text of the page: both stores. *)
Definition texts (w : World) : gmap nat string * gmap nat string :=
  (textContent w, value w).

(** ** A sample page *)

Definition bodyEl : Element :=
  mkElement 0 "BODY" "" false None HTMLOtherElement false false.

(** [<input type="text" value="helo wrold">] *)
Definition inputEl : Element :=
  mkElement 1 "INPUT" "text" false None HTMLInputElement false false.

(** [<textarea>helo wrold</textarea>] *)
Definition textareaEl : Element :=
  mkElement 2 "TEXTAREA" "textarea" false None HTMLTextAreaElement false false.


(** [<div contenteditable>helo wrold</div>] *)
Definition editableDiv : Element :=
  mkElement 4 "DIV" "" true None HTMLOtherElement false false.

(** [<a href=...>] *)
Definition linkEl : Element :=
  mkElement 5 "A" "" false None HTMLOtherElement false false.

Definition samplePage : World :=
  initialWorld bodyEl bodyEl
    {[ 2%nat := "helo wrold"; 4%nat := "helo wrold" ]}
    {[ 1%nat := "helo wrold"; 2%nat := "helo wrold" ]}
    {[ 1%nat := mkRect 100 400; 2%nat := mkRect 200 400;
       3%nat := mkRect 300 120; 4%nat := mkRect 400 400 ]}
    0 50.

(** The same page with the text input already focused. *)
Definition samplePageFocused : World := with_activeElement inputEl samplePage.

(** What a handler did to the outside world and to Busy: the alerts, the
    requests, the number of [setIsProcessing(true)] calls and the Busy
    cell. *)
Definition traffic (w : World)
    : list string * list (string * string) * nat * bool :=
  (alertsOf (log w), fetchesOf (log w), busyCalls (log w),
   state_isProcessing w).

(** The menu is not on screen without the trigger. *)
Definition menuUnderTrigger (w : World) : Prop :=
  menuShown w = true -> triggerShown w = true.

(** ** Key changes: the effect runs again *)

(** The closure constants of the render that follows the current state
    cells with the given key prop. *)
Definition renderClosure (key : string) (w : World) : Closure :=
  mkClosure (state_currentElement w) (state_isMenuOpen w)
    (state_isProcessing w) key.

(** A suspended [processText] call with the closure it was started in. *)
Record Call : Type := mkCall {
  call_closure : Closure;
  call_element : Element;
  call_stage : Stage
}.

(** The controls of an earlier run of the effect.  The cleanup removes the
    listeners and nothing else: the two nodes stay children of
    [document.body] with the style they had, no ref points to them any more,
    the button has lost its click listener, and the menu items keep their
    [onclick], the [processText] of the closure they were created in. *)
Record Orphan : Type := mkOrphan {
  orphan_button : Button;
  orphan_menu : Menu;
  orphan_closure : Closure
}.

(** The component over its whole life: the closure of the listeners (and of
    the items of the menu behind the ref), the page, the suspended calls and
    the controls left behind by earlier runs of the effect. *)
Record Component : Type := mkComponent {
  listeners : Closure;
  doc : World;
  calls : list Call;
  orphans : list Orphan
}.

Definition mounted (key : string) (w : World) : Component :=
  mkComponent (firstRender key) (mountEffect w) [] [].

Definition leftBehind (c : Closure) (w : World) : list Orphan :=
  match helperButtonRef w, helperMenuRef w with
  | Some b, Some m => [mkOrphan b m c]
  | _, _ => []
  end.

(** The key prop has changed: the cleanup of the last run, then the effect
    in the render of this moment. *)
Definition rerunEffect (key : string) (s : Component) : Component :=
  mkComponent (renderClosure key (doc s)) (mountEffect (doc s)) (calls s)
    (orphans s ++ leftBehind (listeners s) (doc s)).

(** A menu item created in closure [c] is activated. *)
Definition startCall (c : Closure) (i : MenuItem) (s : Component)
    : Component :=
  match processText c (promptOf i) (doc s) with
  | (w1, None) => mkComponent (listeners s) w1 (calls s) (orphans s)
  | (w1, Some (el, st)) =>
      mkComponent (listeners s) w1 (calls s ++ [mkCall c el st]) (orphans s)
  end.

(** The [n]-th suspended call is resumed, in its own closure. *)
Definition settle (n : nat) (r : Reply) (s : Component) : Component :=
  match calls s !! n, r with
  | Some (mkCall c el AwaitFetch), FetchSettled fr =>
      match resumeFetch c el fr (doc s) with
      | (w1, None) =>
          mkComponent (listeners s) w1 (delete n (calls s)) (orphans s)
      | (w1, Some (el1, st)) =>
          mkComponent (listeners s) w1 (<[n := mkCall c el1 st]> (calls s))
            (orphans s)
      end
  | Some (mkCall c el AwaitJson), JsonSettled jr =>
      mkComponent (listeners s) (resumeJson c el jr (doc s))
        (delete n (calls s)) (orphans s)
  | _, _ => s
  end.

(** What can happen to the component: an event of the page, a new key prop,
    or the activation of an item of a menu left behind by an earlier run. *)
Inductive Action : Type :=
  | Dispatch (ev : Event)
  | KeyChanges (key : string)
  | OldItemClick (n : nat) (i : MenuItem).

Definition act (s : Component) (a : Action) : Component :=
  match a with
  | Dispatch (MenuItemClick i) => startCall (listeners s) i s
  | Dispatch (Settles n r) => settle n r s
  | Dispatch ev =>
      mkComponent (listeners s)
        (page (step (mkSystem (listeners s) (doc s) []) ev))
        (calls s) (orphans s)
  | KeyChanges key =>
      if String.eqb key (geminiApiKey (listeners s)) then s
      else rerunEffect key s
  | OldItemClick n i =>
      match orphans s !! n with
      | Some o => startCall (orphan_closure o) i s
      | None => s
      end
  end.

Definition perform (s : Component) (acts : list Action) : Component :=
  fold_left act acts s.



(** ** Frame lemmas: what the helpers leave alone *)

Ltac crush_world :=
  repeat match goal with
         | |- context [match ?x with _ => _ end] => destruct x eqn:?
         end;
  simpl in *; try congruence; auto.

Ltac run_body :=
  unfold processText_catch, processText_finally, hideHelper, closeMenu,
    openMenu, on_button, alert, console_error, fetch, setIsProcessing,
    setIsMenuOpen, busyCalls;
  simpl;
  repeat match goal with
         | |- context [if ?b then _ else _] => destruct b eqn:?; simpl
         | |- context [match helperMenuRef ?w with _ => _ end] =>
             destruct (helperMenuRef w) eqn:?; simpl
         | |- context [match helperButtonRef ?w with _ => _ end] =>
             destruct (helperButtonRef w) eqn:?; simpl
         end;
  simpl in *; try congruence; auto.

Ltac consistent_tac :=
  unfold overlayConsistent, menuShown;
  intros (Hb & Hm & Hs);
  destruct (helperButtonRef _) eqn:Eb; [|congruence];
  destruct (helperMenuRef _) eqn:Em; [|congruence];
  simpl; rewrite ?Eb, ?Em; simpl;
  repeat split; try congruence; auto.

Ltac open_handlers :=
  unfold handleDocumentClick, handleButtonClick, handleScroll, handleResize,
    blurTimeout, handleElementBlur, handleElementFocus, showHelper,
    updateHelperPosition, hideHelper, openMenu, closeMenu, on_button,
    setTimeout, setCurrentElement, setIsMenuOpen, setIsProcessing.

Ltac split_cases :=
  repeat match goal with
         | |- context [match ?x with _ => _ end] =>
             lazymatch x with
             | context [match _ with _ => _ end] => fail
             | _ => destruct x eqn:?; simpl
             end
         end.


Section Frames.

Variable c : Closure.

Lemma closeMenu_texts w : texts (closeMenu w) = texts w.
Proof. unfold closeMenu. crush_world. Qed.

Lemma openMenu_texts w : texts (openMenu w) = texts w.
Proof. unfold openMenu. crush_world. Qed.

Lemma on_button_texts f w : texts (on_button f w) = texts w.
Proof. unfold on_button. crush_world. Qed.

Lemma hideHelper_texts w : texts (hideHelper c w) = texts w.
Proof.
  unfold hideHelper. destruct (isMenuOpen c || isProcessing c); [done|].
  now rewrite closeMenu_texts, on_button_texts.
Qed.

Lemma updateHelperPosition_texts el w :
  texts (updateHelperPosition el w) = texts w.
Proof. unfold updateHelperPosition. crush_world. Qed.

Lemma handleElementFocus_texts el w :
  texts (handleElementFocus el w) = texts w.
Proof.
  unfold handleElementFocus, showHelper. destruct (focusable el); [|done].
  now rewrite updateHelperPosition_texts.
Qed.

Lemma processText_finally_texts el w :
  texts (processText_finally c el w) = texts w.
Proof.
  unfold processText_finally.
  destruct (differs _ _); [rewrite hideHelper_texts|];
    unfold setIsProcessing; simpl; apply on_button_texts.
Qed.

Lemma processText_catch_texts el w :
  texts (processText_catch c el w) = texts w.
Proof. unfold processText_catch. now rewrite processText_finally_texts. Qed.

Lemma processText_texts prompt w :
  texts (fst (processText c prompt w)) = texts w.
Proof.
  unfold processText.
  destruct (currentElement c) as [el|]; [|done].
  destruct (String.eqb (textContentOf w el) ""); [done|].
  destruct (String.eqb (geminiApiKey c) ""); simpl.
  - rewrite processText_finally_texts. unfold alert, emit, texts; simpl.
    change (texts (closeMenu
      (on_button (button_content "" true) (setIsProcessing true w)))
      = texts w).
    now rewrite closeMenu_texts, on_button_texts.
  - change (texts (closeMenu
      (on_button (button_content "" true) (setIsProcessing true w)))
      = texts w).
    now rewrite closeMenu_texts, on_button_texts.
Qed.

(** The alerts raised so far. *)
Lemma closeMenu_alerts w :
  alertsOf (log (closeMenu w)) = alertsOf (log w).
Proof. unfold closeMenu. crush_world. Qed.

Lemma on_button_log f w : log (on_button f w) = log w.
Proof. unfold on_button. crush_world. Qed.

Lemma hideHelper_alerts w :
  alertsOf (log (hideHelper c w)) = alertsOf (log w).
Proof.
  unfold hideHelper. destruct (isMenuOpen c || isProcessing c); [done|].
  now rewrite closeMenu_alerts, on_button_log.
Qed.

Lemma processText_finally_alerts el w :
  alertsOf (log (processText_finally c el w)) = alertsOf (log w).
Proof.
  unfold processText_finally.
  destruct (differs _ _); [rewrite hideHelper_alerts|];
    unfold setIsProcessing; simpl; now rewrite on_button_log.
Qed.

(** Busy after the [finally] block. *)
Lemma closeMenu_isProcessing w :
  state_isProcessing (closeMenu w) = state_isProcessing w.
Proof. unfold closeMenu. crush_world. Qed.

Lemma on_button_isProcessing f w :
  state_isProcessing (on_button f w) = state_isProcessing w.
Proof. unfold on_button. crush_world. Qed.

Lemma hideHelper_isProcessing w :
  state_isProcessing (hideHelper c w) = state_isProcessing w.
Proof.
  unfold hideHelper. destruct (isMenuOpen c || isProcessing c); [done|].
  now rewrite closeMenu_isProcessing, on_button_isProcessing.
Qed.

Lemma processText_finally_isProcessing el w :
  state_isProcessing (processText_finally c el w) = false.
Proof.
  unfold processText_finally.
  destruct (differs _ _); [rewrite hideHelper_isProcessing|]; reflexivity.
Qed.

(** The trigger's content after the [finally] block. *)
Lemma closeMenu_button w : helperButtonRef (closeMenu w) = helperButtonRef w.
Proof. unfold closeMenu. crush_world. Qed.

Lemma processText_finally_content el w b :
  helperButtonRef w = Some b ->
  exists b',
    helperButtonRef (processText_finally c el w) = Some b'
    /\ b_textContent b' = "G" /\ b_loading b' = false.
Proof.
  intros Hb. unfold processText_finally, hideHelper.
  destruct (differs _ _); [destruct (isMenuOpen c || isProcessing c)|];
    try rewrite closeMenu_button; unfold on_button; simpl; rewrite Hb; simpl;
    eauto.
Qed.

End Frames.

(** ** The listeners of a mounted component *)

Lemma step_handlers s ev : handlers (step s ev) = handlers s.
Proof.
  destruct ev; simpl; try reflexivity.
  - destruct (processText _ _ _) as [w1 [k|]]; reflexivity.
  - destruct (timers (page s)); reflexivity.
  - destruct (inflight s !! i) as [[el [|]]|]; destruct r; try reflexivity.
    destruct (resumeFetch _ _ _ _) as [w1 [k|]]; reflexivity.
Qed.

Lemma run_handlers evs : forall s, handlers (run s evs) = handlers s.
Proof.
  unfold run.
  induction evs as [|ev evs IH]; intros s; simpl; [reflexivity|].
  now rewrite IH, step_handlers.
Qed.

(** The listeners installed at mount stay those of the first render. *)
Lemma mounted_handlers key w evs :
  handlers (run (mount key w) evs) = firstRender key.
Proof. now rewrite run_handlers. Qed.

Lemma processText_without_target c prompt w :
  currentElement c = None -> processText c prompt w = (w, None).
Proof. intros H. unfold processText. now rewrite H. Qed.

Lemma processText_empty_textContent c el prompt w :
  currentElement c = Some el -> textContentOf w el = "" ->
  processText c prompt w = (w, None).
Proof. intros H Ht. unfold processText. now rewrite H, Ht. Qed.

Lemma step_no_transform s ev :
  currentElement (handlers s) = None -> inflight s = [] ->
  inflight (step s ev) = [].
Proof.
  intros Hc Hi. destruct ev; simpl; auto.
  - rewrite processText_without_target by assumption. assumption.
  - destruct (timers (page s)); assumption.
  - rewrite Hi, lookup_nil. assumption.
Qed.

(** With the listeners of the first render no transform is ever started. *)
Lemma mounted_never_transforms key w evs :
  inflight (run (mount key w) evs) = [].
Proof.
  assert (H : forall s, currentElement (handlers s) = None ->
                        inflight s = [] -> inflight (run s evs) = []).
  { induction evs as [|ev evs IH]; intros s Hc Hi; simpl; [assumption|].
    apply IH; [now rewrite step_handlers | now apply step_no_transform]. }
  now apply H.
Qed.

(** On success the text goes to [value] for a text area or an input and to
    [textContent] for anything else. *)
Lemma resumeJson_success c el improvedText w :
  let w' := resumeJson c el (JsonParsed (Some improvedText)) w in
  if isFormControl el then
    valueOf w' el = improvedText /\ textContent w' = textContent w
  else
    textContentOf w' el = improvedText /\ value w' = value w.
Proof.
  simpl.
  pose proof (processText_finally_texts c el
                (assignImprovedText el improvedText w)) as Hf.
  unfold texts in Hf. injection Hf as Ht Hv.
  unfold valueOf, textContentOf. rewrite Ht, Hv.
  unfold assignImprovedText. destruct (isFormControl el); simpl;
    now rewrite lookup_insert_eq.
Qed.

(** A closure that holds the content-editable element, the service
    answering "Hello world.": one request carrying the prompt and the text,
    the text replaced, Busy cleared, the trigger back to "G" and still
    displayed, focus being on the element. *)
Example processText_run_editable :
  let c := mkClosure (Some editableDiv) false false "k" in
  let w := page (run (mount "k" samplePage) [FocusIn editableDiv]) in
  let w' := processText_run c grammarPrompt (FetchResponse true)
              (JsonParsed (Some "Hello world.")) w in
  fetchesOf (log w') = [(endpoint "k", grammarPrompt ++ ": helo wrold")]
  /\ alertsOf (log w') = []
  /\ textContentOf w' editableDiv = "Hello world."
  /\ state_isProcessing w' = false
  /\ helperButtonRef w'
     = Some (mkButton "G" false "flex" (Some 368) (Some 450) "9999999")
  /\ menuShown w' = false.
Proof. vm_compute. repeat split; reflexivity. Qed.

(** C1 (the code departs from the claim).  The scenario of the claim: the
    text input holding "helo wrold" is focused, "Correct Grammar" is activated
    and the service would answer "Hello world.".  With the listeners that
    [mount] installs, [processText] sees [currentElement = null] and returns
    at once: no request is sent and the input keeps "helo wrold".  A
    [processText] whose closure does hold the input returns as well, because
    it reads [textContent], which is empty for an input, where the write-back
    of lines 85-89 uses [value]. *)
Theorem correct_grammar_on_input_is_dropped :
  let s0 := run (mount "k" samplePage) [FocusIn inputEl; ButtonClick] in
  let s1 := step s0 (MenuItemClick CorrectGrammar) in
  let s2 := run s1 [Settles 0 (FetchSettled (FetchResponse true));
                    Settles 0 (JsonSettled (JsonParsed (Some "Hello world.")))]
  in
  state_currentElement (page s0) = Some inputEl
  /\ valueOf (page s0) inputEl = "helo wrold"
  /\ page s1 = page s0
  /\ inflight s1 = []
  /\ fetchesOf (log (page s2)) = []
  /\ valueOf (page s2) inputEl = "helo wrold"
  /\ processText (mkClosure (Some inputEl) true false "k") grammarPrompt
       (page s0) = (page s0, None).
Proof. vm_compute. repeat split; reflexivity. Qed.

(** ** The trigger control *)

Lemma openMenu_shown w :
  helperMenuRef w <> None ->
  menuShown (openMenu w) = true
  /\ state_isMenuOpen (openMenu w) = true
  /\ helperMenuRef (openMenu w) <> None.
Proof.
  intros H. unfold openMenu, menuShown.
  destruct (helperMenuRef w); [simpl; repeat split; congruence|congruence].
Qed.

Lemma mountEffect_menu w :
  helperMenuRef (mountEffect w) <> None
  /\ menuShown (mountEffect w) = false.
Proof.
  unfold mountEffect, handleElementFocus, showHelper, updateHelperPosition,
    menuShown.
  destruct (negb _); [destruct (focusable _)|]; simpl; split; congruence.
Qed.

Lemma first_render_click key s :
  handlers s = firstRender key -> helperMenuRef (page s) <> None ->
  let s' := step s ButtonClick in
  handlers s' = firstRender key
  /\ helperMenuRef (page s') <> None
  /\ menuShown (page s') = true
  /\ state_isMenuOpen (page s') = true.
Proof.
  intros Hc Hm. simpl. rewrite Hc. unfold handleButtonClick. simpl.
  destruct (openMenu_shown (page s) Hm) as (? & ? & ?). auto.
Qed.

(** Any positive number of activations leaves the menu open. *)
Lemma trigger_clicks_leave_menu_open key w n :
  menuShown (page (run (mount key w) (repeat ButtonClick (S n)))) = true.
Proof.
  assert (H : forall m s, handlers s = firstRender key ->
            helperMenuRef (page s) <> None ->
            menuShown (page (run s (repeat ButtonClick (S m)))) = true).
  { induction m as [|m IH]; intros s Hc Hm;
      destruct (first_render_click key s Hc Hm) as (Hc' & Hm' & Hs & _).
    - exact Hs.
    - change (run s (repeat ButtonClick (S (S m))))
        with (run (step s ButtonClick) (repeat ButtonClick (S m))).
      now apply IH. }
  apply H; [reflexivity | apply mountEffect_menu].
Qed.

Lemma mountEffect_isMenuOpen w :
  state_isMenuOpen (mountEffect w) = state_isMenuOpen w.
Proof.
  unfold mountEffect, handleElementFocus, showHelper, updateHelperPosition.
  destruct (negb _); [destruct (focusable _)|]; reflexivity.
Qed.

(** C2 (the code departs from the claim).  After mount the menu is closed.
    The click listener of the trigger is the [handleButtonClick] of the first
    render, whose [isMenuOpen] is the constant [false]: every activation
    takes the [openMenu] branch.  Two activations from the closed state leave
    the menu open, where the claim has it closed again. *)
Theorem trigger_click_twice_leaves_menu_open key bodyEl active texts values
    boxes sx sy :
  let w := initialWorld bodyEl active texts values boxes sx sy in
  let s0 := mount key w in
  let s1 := step s0 ButtonClick in
  let s2 := step s1 ButtonClick in
  (menuShown (page s0) = false /\ state_isMenuOpen (page s0) = false)
  /\ (menuShown (page s1) = true /\ state_isMenuOpen (page s1) = true)
  /\ (menuShown (page s2) = true /\ state_isMenuOpen (page s2) = true).
Proof.
  intros w s0 s1 s2.
  destruct (mountEffect_menu w) as [Hm Hs].
  destruct (first_render_click key s0 eq_refl Hm) as (Hc1 & Hm1 & Hs1 & Ho1).
  destruct (first_render_click key s1 Hc1 Hm1) as (_ & _ & Hs2 & Ho2).
  repeat split; try assumption.
  subst s0. simpl. now rewrite mountEffect_isMenuOpen.
Qed.

(** A [handleButtonClick] whose closure is current does toggle. *)
Lemma handleButtonClick_toggles c w :
  helperMenuRef w <> None ->
  menuShown (handleButtonClick c w) = negb (isMenuOpen c).
Proof.
  intros H. unfold handleButtonClick, openMenu, closeMenu, menuShown.
  destruct (isMenuOpen c), (helperMenuRef w); simpl; congruence.
Qed.

(** ** A missing credential *)

(** C3, counterexample.  The closure holds the content-editable element
    with text "helo wrold" and an empty key.  The notification is shown and
    nothing is fetched, and [setIsProcessing(true)] has been called once:
    line 56 runs before the key is looked at on line 64. *)
Lemma missing_credential_sets_busy :
  let c := mkClosure (Some editableDiv) false false "" in
  let w := page (run (mount "" samplePage) [FocusIn editableDiv]) in
  let w' := fst (processText c grammarPrompt w) in
  currentElement c = Some editableDiv
  /\ textContentOf w editableDiv = "helo wrold"
  /\ geminiApiKey c = ""
  /\ busyCalls (log w) = 0%nat
  /\ busyCalls (log w') = 1%nat.
Proof. vm_compute. repeat split; reflexivity. Qed.

(** C3, as amended.  With no credential, a [processText] whose closure holds
    a Target with non-empty text content shows exactly one notification,
    sends nothing, and does not suspend; Busy is set once at the start of the
    call and is cleared again before the call returns. *)
Theorem processText_missing_credential c el prompt w :
  currentElement c = Some el ->
  textContentOf w el <> "" ->
  geminiApiKey c = "" ->
  let r := processText c prompt w in
  snd r = None
  /\ alertsOf (log (fst r))
     = "Please set your Gemini API key in the extension settings"
       :: alertsOf (log w)
  /\ fetchesOf (log (fst r)) = fetchesOf (log w)
  /\ busyCalls (log (fst r)) = S (busyCalls (log w))
  /\ state_isProcessing (fst r) = false.
Proof.
  intros Hc Ht Hk. unfold processText. rewrite Hc, Hk.
  apply String.eqb_neq in Ht. rewrite Ht. simpl.
  repeat split; run_body.
Qed.

Lemma processText_missing_credential_witness :
  let c := mkClosure (Some editableDiv) false false "" in
  let w := page (run (mount "" samplePage) [FocusIn editableDiv]) in
  (currentElement c = Some editableDiv
   /\ textContentOf w editableDiv <> ""
   /\ geminiApiKey c = "")
  /\ (let r := processText c grammarPrompt w in
      snd r = None
      /\ alertsOf (log (fst r))
         = "Please set your Gemini API key in the extension settings"
           :: alertsOf (log w)
      /\ fetchesOf (log (fst r)) = fetchesOf (log w)
      /\ busyCalls (log (fst r)) = S (busyCalls (log w))
      /\ state_isProcessing (fst r) = false).
Proof.
  intros c w.
  assert (Ht : textContentOf w editableDiv <> "")
    by (vm_compute; discriminate).
  split; [split; [reflexivity | split; [exact Ht | reflexivity]] |].
  exact (processText_missing_credential c editableDiv grammarPrompt w
           eq_refl Ht eq_refl).
Defined.

(** ** Focus *)


Lemma showHelper_shown el w b m :
  helperButtonRef w = Some b -> helperMenuRef w = Some m ->
  let box := getBoundingClientRect w el in
  let w' := showHelper el w in
  state_currentElement w' = Some el
  /\ triggerShown w' = true
  /\ helperButtonRef w'
     = Some (button_place (rect_right box + scrollX w - 32)
               (rect_top box + scrollY w) b)
  /\ helperMenuRef w'
     = Some (menu_place (rect_right box + scrollX w - 10)
               (rect_top box + scrollY w + 32 - 8) m).
Proof.
  intros Hb Hm. unfold showHelper, updateHelperPosition, triggerShown,
    helperShown. simpl. rewrite Hb, Hm. simpl. auto.
Qed.




(** ** Completion of a transform *)

(** [hideHelper] called from the [finally] block does nothing when the
    closure's [isMenuOpen] or [isProcessing] is set. *)
Lemma processText_finally_guarded c el w :
  isMenuOpen c || isProcessing c = true ->
  triggerShown (processText_finally c el w) = triggerShown w.
Proof.
  intros Hg. unfold processText_finally, hideHelper. rewrite Hg.
  unfold triggerShown, helperShown, on_button.
  destruct (differs _ _); simpl;
    destruct (helperButtonRef w) eqn:Hb; simpl; rewrite ?Hb; reflexivity.
Qed.


(** C5 (the code departs from the claim).  A run of the component from
    mount.  The content-editable element is focused; the key prop changes to
    "k1", so the effect runs again in a render that holds the element as
    [currentElement]; the trigger is activated and "Correct Grammar" starts a
    request.  While the request is pending the key prop changes to "k2": the
    effect runs once more, in a render whose [isProcessing] is [true].  The
    first request is answered.  Then the trigger is activated again,
    "Improve Clarity" starts a second request, from the closure of that
    render; focus moves on to a link and the service answers "Hello world.".
    The text is written, the trigger shows "G" again, Busy is cleared, focus
    is on the link, and the trigger is still displayed: the [hideHelper] of
    the [finally] block returns at its guard, which reads the closure's
    [isProcessing], not the cell that [setIsProcessing(false)] has just
    written. *)
Theorem completion_after_key_change_keeps_trigger :
  let busy := mkClosure (Some editableDiv) false true "k2" in
  let s0 := perform (mounted "" samplePage)
              [Dispatch (FocusIn editableDiv); KeyChanges "k1";
               Dispatch ButtonClick;
               Dispatch (MenuItemClick CorrectGrammar)] in
  let s1 := act s0 (KeyChanges "k2") in
  let s2 := perform s1
              [Dispatch (Settles 0 (FetchSettled (FetchResponse true)));
               Dispatch (Settles 0
                           (JsonSettled (JsonParsed (Some "Helo world."))))]
  in
  let s3 := perform s2
              [Dispatch ButtonClick;
               Dispatch (MenuItemClick ImproveClarity)] in
  let s4 := perform s3
              [Dispatch (FocusOut (Some linkEl)); Dispatch (FocusIn linkEl);
               Dispatch (Settles 0 (FetchSettled (FetchResponse true)));
               Dispatch (Settles 0
                           (JsonSettled (JsonParsed (Some "Hello world."))))]
  in
  (calls s0
   = [mkCall (mkClosure (Some editableDiv) false false "k1") editableDiv
        AwaitFetch]
   /\ state_isProcessing (doc s0) = true)
  /\ (listeners s1 = busy /\ triggerShown (doc s1) = true)
  /\ (calls s2 = []
      /\ state_isProcessing (doc s2) = false
      /\ activeElement (doc s2) = editableDiv
      /\ triggerShown (doc s2) = true)
  /\ (calls s3 = [mkCall busy editableDiv AwaitFetch]
      /\ state_isProcessing (doc s3) = true
      /\ menuShown (doc s3) = false)
  /\ (calls s4 = []
      /\ textContentOf (doc s4) editableDiv = "Hello world."
      /\ helperButtonRef (doc s4)
         = Some (mkButton "G" false "flex" (Some 368) (Some 450) "9999999")
      /\ state_isProcessing (doc s4) = false
      /\ state_currentElement (doc s4) = Some editableDiv
      /\ activeElement (doc s4) = linkEl
      /\ triggerShown (doc s4) = true).
Proof. vm_compute. repeat split; reflexivity. Qed.

(** ** Failure of a transform *)

Lemma processText_catch_outcome c el w :
  let w' := processText_catch c el w in
  texts w' = texts w
  /\ alertsOf (log w')
     = "Error processing text. Please try again." :: alertsOf (log w)
  /\ state_isProcessing w' = false.
Proof.
  simpl. split; [apply processText_catch_texts|].
  split; [|apply processText_finally_isProcessing].
  unfold processText_catch. now rewrite processText_finally_alerts.
Qed.

(** C6.  A transform that fails, at the request (the promise rejects or the
    response is not [ok]) or at the body (parsing rejects or the answer has
    no text at the expected path), leaves both text stores of the page as
    they were, raises exactly one notification and ends with Busy cleared.
    Nothing was written before the failure either: the part of [processText]
    before the request and the step from an [ok] response to the parsing of
    its body do not touch the text. *)
Theorem failed_transform_leaves_text c el fr jr w :
  fetchFailed fr = true ->
  jsonFailed jr = true ->
  let wf := fst (resumeFetch c el fr w) in
  let wj := resumeJson c el jr w in
  snd (resumeFetch c el fr w) = None
  /\ (texts wf = texts w
      /\ alertsOf (log wf)
         = "Error processing text. Please try again." :: alertsOf (log w)
      /\ state_isProcessing wf = false)
  /\ (texts wj = texts w
      /\ alertsOf (log wj)
         = "Error processing text. Please try again." :: alertsOf (log w)
      /\ state_isProcessing wj = false)
  /\ (forall prompt, texts (fst (processText c prompt w)) = texts w)
  /\ resumeFetch c el (FetchResponse true) w = (w, Some (el, AwaitJson)).
Proof.
  intros Hf Hj. simpl.
  split; [destruct fr as [|[|]]; simpl in *; congruence|].
  split; [destruct fr as [|[|]]; simpl in *; try congruence;
          apply processText_catch_outcome|].
  split; [destruct jr as [|[t|]]; simpl in *; try congruence;
          apply processText_catch_outcome|].
  split; [intros prompt; apply processText_texts | reflexivity].
Qed.

Lemma failed_transform_leaves_text_witness :
  let c := mkClosure (Some textareaEl) false false "k" in
  let w := page (run (mount "k" samplePage) [FocusIn textareaEl]) in
  (fetchFailed (FetchResponse false) = true
   /\ jsonFailed (JsonParsed None) = true)
  /\ texts (fst (resumeFetch c textareaEl (FetchResponse false) w)) = texts w
  /\ texts (resumeJson c textareaEl (JsonParsed None) w) = texts w.
Proof.
  intros c w.
  pose proof (failed_transform_leaves_text c textareaEl
                (FetchResponse false) (JsonParsed None) w eq_refl eq_refl)
    as H.
  split; [split; reflexivity|].
  split; [exact (proj1 (proj1 (proj2 H)))
         | exact (proj1 (proj1 (proj2 (proj2 H))))].
Defined.

(** Only the success branch writes text, whatever the listeners' closure. *)
Lemma step_texts s ev :
  (forall i t, ev <> Settles i (JsonSettled (JsonParsed (Some t)))) ->
  texts (page (step s ev)) = texts (page s).
Proof.
  intros Hev. destruct ev; simpl.
  - now rewrite handleElementFocus_texts.
  - unfold handleElementBlur.
    destruct relatedTarget as [r|];
      [destruct (inHelperButton r || inHelperMenu r)|]; reflexivity.
  - unfold handleDocumentClick. destruct (_ && _); [|reflexivity].
    destruct (differs _ _); [rewrite hideHelper_texts|];
      apply closeMenu_texts.
  - unfold handleButtonClick. destruct (isMenuOpen _);
      [apply closeMenu_texts | apply openMenu_texts].
  - pose proof (processText_texts (handlers s) (promptOf i) (page s)) as H.
    destruct (processText _ _ _) as [w1 [k|]]; exact H.
  - unfold handleScroll. destruct (currentElement _); [|reflexivity].
    destruct (helperShown _); [|reflexivity].
    now rewrite updateHelperPosition_texts.
  - unfold handleResize. destruct (currentElement _); [|reflexivity].
    destruct (helperShown _); [|reflexivity].
    now rewrite updateHelperPosition_texts.
  - destruct (timers (page s)) as [|t ts]; [reflexivity|]. simpl.
    unfold blurTimeout. destruct (_ && _); [|reflexivity].
    now rewrite hideHelper_texts.
  - destruct (inflight s !! i) as [[el [|]]|]; destruct r as [fr|jr];
      try reflexivity.
    + destruct fr as [|[|]]; simpl; try apply processText_catch_texts.
      reflexivity.
    + destruct jr as [|[t|]]; simpl; try apply processText_catch_texts.
      exfalso. now apply (Hev i t).
Qed.

(** ** Blur *)

(** Focus moving into the trigger or the menu: nothing happens at all. *)
Lemma handleElementBlur_into_overlay c r w :
  inHelperButton r || inHelperMenu r = true ->
  handleElementBlur c (Some r) w = w.
Proof. intros H. unfold handleElementBlur. now rewrite H. Qed.

(** Focus moving anywhere else: one timer of 100ms, nothing hidden yet. *)
Lemma handleElementBlur_elsewhere c r w :
  match r with
  | Some e => inHelperButton e || inHelperMenu e = false
  | None => True
  end ->
  let w' := handleElementBlur c r w in
  w' = setTimeout c 100 w
  /\ timers w' = (timers w ++ [c])%list
  /\ triggerShown w' = triggerShown w
  /\ menuShown w' = menuShown w
  /\ state_currentElement w' = state_currentElement w.
Proof.
  intros H. unfold handleElementBlur. destruct r as [e|];
    [rewrite H|]; simpl; auto.
Qed.

(** When the timer fires, the decision is taken on the closure's constants,
    and the state cells are not consulted. *)
Lemma blurTimeout_decides_on_closure c w :
  blurTimeout c w
  = if isMenuOpen c || isProcessing c then w
    else closeMenu (on_button (button_display "none") w).
Proof.
  unfold blurTimeout, hideHelper.
  destruct (isMenuOpen c), (isProcessing c); reflexivity.
Qed.

(** C7 (the code departs from the claim).  The text area is focused, the
    trigger is activated (the menu opens; focus stays in the text area), then
    focus moves to a link: the blur schedules the 100ms timer.  When the timer
    fires the menu is open, and the overlay is hidden all the same, menu
    included: the callback tests the [isMenuOpen] and [isProcessing] of the
    first render, both [false].  The same happens when the menu is opened
    between the blur and the timer. *)
Theorem blur_timer_hides_open_menu :
  let s := run (mount "k" samplePage)
             [FocusIn textareaEl; ButtonClick;
              FocusOut (Some linkEl); FocusIn linkEl] in
  let t := run (mount "k" samplePage)
             [FocusIn textareaEl; FocusOut (Some linkEl); FocusIn linkEl;
              ButtonClick] in
  (timers (page s) = [firstRender "k"]
   /\ state_isMenuOpen (page s) = true
   /\ menuShown (page s) = true
   /\ triggerShown (page s) = true
   /\ triggerShown (page (step s TimerFires)) = false
   /\ menuShown (page (step s TimerFires)) = false)
  /\ (timers (page t) = [firstRender "k"]
      /\ state_isMenuOpen (page t) = true
      /\ menuShown (page t) = true
      /\ triggerShown (page t) = true
      /\ triggerShown (page (step t TimerFires)) = false
      /\ menuShown (page (step t TimerFires)) = false).
Proof. vm_compute. repeat split; reflexivity. Qed.

(** ** Clicks in the document *)

Lemma closeMenu_closed w m :
  helperMenuRef w = Some m ->
  menuShown (closeMenu w) = false
  /\ state_isMenuOpen (closeMenu w) = false
  /\ timers (closeMenu w) = timers w
  /\ helperMenuRef (closeMenu w) = Some (menu_display "none" m).
Proof.
  intros H. unfold closeMenu, menuShown. rewrite H. simpl. auto.
Qed.

Lemma on_button_menu f w : helperMenuRef (on_button f w) = helperMenuRef w.
Proof. unfold on_button. crush_world. Qed.

Lemma on_button_timers f w : timers (on_button f w) = timers w.
Proof. unfold on_button. crush_world. Qed.

Lemma handleDocumentClick_outside c target w m :
  helperMenuRef w = Some m ->
  inHelperButton target = false ->
  inHelperMenu target = false ->
  let w' := handleDocumentClick c target w in
  menuShown w' = false
  /\ state_isMenuOpen w' = false
  /\ timers w' = timers w.
Proof.
  intros Hm Hb Hn. simpl. unfold handleDocumentClick. rewrite Hb, Hn. simpl.
  destruct (closeMenu_closed w m Hm) as (Hs & Ho & Ht & Hr).
  destruct (differs _ _); [|auto].
  unfold hideHelper. destruct (isMenuOpen c || isProcessing c); [auto|].
  assert (Hr' : helperMenuRef
                  (on_button (button_display "none") (closeMenu w))
                = Some (menu_display "none" m))
    by now rewrite on_button_menu.
  destruct (closeMenu_closed _ _ Hr') as (Hs' & Ho' & Ht' & _).
  rewrite Hs', Ho', Ht', on_button_timers. auto.
Qed.

(** C8.  A document click whose target is outside the trigger and outside
    the menu leaves the menu closed when [handleDocumentClick] returns, in
    the display and in the state cell, whatever the closure of the listener
    and whether or not the trigger is hidden by the same call; no timer is
    started for it. *)
Theorem outside_click_closes_menu c target w m :
  helperMenuRef w = Some m ->
  inHelperButton target = false ->
  inHelperMenu target = false ->
  let w' := handleDocumentClick c target w in
  menuShown w' = false
  /\ state_isMenuOpen w' = false
  /\ timers w' = timers w.
Proof. exact (handleDocumentClick_outside c target w m). Qed.

Lemma outside_click_closes_menu_witness :
  let s := run (mount "k" samplePage) [FocusIn textareaEl; ButtonClick] in
  let w' := handleDocumentClick (handlers s) linkEl (page s) in
  (helperMenuRef (page s)
     = Some (mkMenu "block" (Some 390) (Some 274) "9999999")
   /\ inHelperButton linkEl = false
   /\ inHelperMenu linkEl = false)
  /\ (menuShown w' = false
      /\ state_isMenuOpen w' = false
      /\ timers w' = timers (page s)).
Proof.
  intros s w'.
  split; [repeat split; reflexivity|].
  exact (outside_click_closes_menu (handlers s) linkEl (page s)
           (mkMenu "block" (Some 390) (Some 274) "9999999")
           eq_refl eq_refl eq_refl).
Defined.

(** The same call may or may not hide the trigger; the menu is closed in
    both cases. *)
Lemma outside_click_trigger_either_way :
  let w := page (run (mount "k" samplePage) [FocusIn textareaEl; ButtonClick])
  in
  let here := mkClosure (Some textareaEl) false false "k" in
  let stale := firstRender "k" in
  triggerShown (handleDocumentClick here linkEl w) = true
  /\ menuShown (handleDocumentClick here linkEl w) = false
  /\ triggerShown (handleDocumentClick stale linkEl w) = false
  /\ menuShown (handleDocumentClick stale linkEl w) = false.
Proof. vm_compute. repeat split; reflexivity. Qed.

(** ** The menu and its state cell *)

Lemma closeMenu_consistent w :
  overlayConsistent w -> overlayConsistent (closeMenu w).
Proof. unfold closeMenu. consistent_tac. Qed.

Lemma openMenu_consistent w :
  overlayConsistent w -> overlayConsistent (openMenu w).
Proof. unfold openMenu. consistent_tac. Qed.

Lemma on_button_consistent f w :
  overlayConsistent w -> overlayConsistent (on_button f w).
Proof. unfold on_button. consistent_tac. Qed.

Lemma emit_consistent e w :
  overlayConsistent w -> overlayConsistent (emit e w).
Proof. intros H. exact H. Qed.

Lemma setIsProcessing_consistent b w :
  overlayConsistent w -> overlayConsistent (setIsProcessing b w).
Proof. intros H. exact H. Qed.

Lemma hideHelper_consistent c w :
  overlayConsistent w -> overlayConsistent (hideHelper c w).
Proof.
  intros H. unfold hideHelper. destruct (_ || _); [assumption|].
  now apply closeMenu_consistent, on_button_consistent.
Qed.

Lemma updateHelperPosition_consistent el w :
  overlayConsistent w -> overlayConsistent (updateHelperPosition el w).
Proof. unfold updateHelperPosition. consistent_tac. Qed.

Lemma handleElementFocus_consistent el w :
  overlayConsistent w -> overlayConsistent (handleElementFocus el w).
Proof.
  intros H. unfold handleElementFocus, showHelper.
  destruct (focusable el); [|assumption].
  now apply updateHelperPosition_consistent.
Qed.

Lemma processText_finally_consistent c el w :
  overlayConsistent w -> overlayConsistent (processText_finally c el w).
Proof.
  intros H. unfold processText_finally.
  apply (on_button_consistent (button_content "G" false)) in H.
  apply (setIsProcessing_consistent false) in H.
  destruct (differs _ _); [now apply hideHelper_consistent | exact H].
Qed.

Lemma processText_catch_consistent c el w :
  overlayConsistent w -> overlayConsistent (processText_catch c el w).
Proof.
  intros H. unfold processText_catch.
  now apply processText_finally_consistent.
Qed.

Lemma processText_consistent c prompt w :
  overlayConsistent w -> overlayConsistent (fst (processText c prompt w)).
Proof.
  intros H. unfold processText.
  destruct (currentElement c) as [el|]; [|assumption].
  destruct (String.eqb (textContentOf w el) ""); [assumption|].
  apply (setIsProcessing_consistent true) in H.
  apply (on_button_consistent (button_content "" true)) in H.
  apply closeMenu_consistent in H.
  destruct (String.eqb (geminiApiKey c) ""); simpl; [|exact H].
  now apply processText_finally_consistent.
Qed.

Lemma handleDocumentClick_consistent c target w :
  overlayConsistent w -> overlayConsistent (handleDocumentClick c target w).
Proof.
  intros H. unfold handleDocumentClick. destruct (_ && _); [|assumption].
  destruct (differs _ _); [apply hideHelper_consistent|];
    now apply closeMenu_consistent.
Qed.

Lemma step_consistent s ev :
  overlayConsistent (page s) -> overlayConsistent (page (step s ev)).
Proof.
  intros H. destruct ev; simpl.
  - now apply handleElementFocus_consistent.
  - unfold handleElementBlur.
    destruct relatedTarget as [r|];
      [destruct (inHelperButton r || inHelperMenu r)|]; exact H.
  - now apply handleDocumentClick_consistent.
  - unfold handleButtonClick. destruct (isMenuOpen _);
      [now apply closeMenu_consistent | now apply openMenu_consistent].
  - pose proof (processText_consistent (handlers s) (promptOf i) (page s) H)
      as H1.
    destruct (processText _ _ _) as [w1 [k|]]; exact H1.
  - unfold handleScroll. destruct (currentElement _); [|exact H].
    destruct (helperShown _); [|exact H].
    now apply updateHelperPosition_consistent.
  - unfold handleResize. destruct (currentElement _); [|exact H].
    destruct (helperShown _); [|exact H].
    now apply updateHelperPosition_consistent.
  - destruct (timers (page s)) as [|t ts]; [exact H|]. simpl.
    unfold blurTimeout. destruct (_ && _); [|exact H].
    now apply hideHelper_consistent.
  - destruct (inflight s !! i) as [[el [|]]|]; destruct r as [fr|jr];
      try exact H.
    + destruct fr as [|[|]]; simpl;
        try (now apply processText_catch_consistent). exact H.
    + destruct jr as [|[t|]]; simpl;
        try (now apply processText_catch_consistent).
      apply processText_finally_consistent.
      unfold assignImprovedText. destruct (isFormControl el); exact H.
Qed.

Lemma mountEffect_consistent w :
  state_isMenuOpen w = false -> overlayConsistent (mountEffect w).
Proof.
  intros Hw. unfold mountEffect.
  assert (H : overlayConsistent (installControls w)).
  { unfold overlayConsistent, installControls, menuShown. simpl.
    repeat split; congruence. }
  destruct (negb _); [now apply handleElementFocus_consistent | exact H].
Qed.

(** In every state reached from a mount both controls exist and the menu is
    displayed exactly when [isMenuOpen] is set. *)
Lemma reachable_consistent key w evs :
  state_isMenuOpen w = false ->
  overlayConsistent (page (run (mount key w) evs)).
Proof.
  intros Hw.
  assert (H : forall s, overlayConsistent (page s) ->
                        overlayConsistent (page (run s evs))).
  { unfold run. induction evs as [|ev evs IH]; intros s Hs; simpl;
      [exact Hs | now apply IH, step_consistent]. }
  apply H. simpl. now apply mountEffect_consistent.
Qed.

(** In every state reached from a mount, a click outside both controls
    closes the menu. *)
Lemma reachable_outside_click_closes_menu key w evs target :
  state_isMenuOpen w = false ->
  inHelperButton target = false ->
  inHelperMenu target = false ->
  let s := step (run (mount key w) evs) (Click target) in
  menuShown (page s) = false /\ state_isMenuOpen (page s) = false.
Proof.
  intros Hw Hb Hn. simpl.
  destruct (reachable_consistent key w evs Hw) as (_ & Hm & _).
  destruct (helperMenuRef (page (run (mount key w) evs))) as [m|] eqn:Em;
    [|congruence].
  destruct (handleDocumentClick_outside (handlers (run (mount key w) evs))
              target _ m Em Hb Hn) as (H1 & H2 & _).
  auto.
Qed.

(** C9 (the code departs from the claim).  The text area is focused, so it
    is the Target and the trigger is shown; then the user clicks inside the
    text area.  The click listener is the [handleDocumentClick] of the first
    render, for which [currentElement] is [null]: the focused element differs
    from it, [hideHelper] runs and the trigger is hidden while the Target
    still has focus. *)
Theorem click_in_target_hides_trigger :
  let s0 := run (mount "k" samplePage) [FocusIn textareaEl] in
  let s := step s0 (Click textareaEl) in
  triggerShown (page s0) = true
  /\ state_currentElement (page s) = Some textareaEl
  /\ activeElement (page s) = textareaEl
  /\ state_isMenuOpen (page s) = false
  /\ state_isProcessing (page s) = false
  /\ triggerShown (page s) = false.
Proof. vm_compute. repeat split; reflexivity. Qed.

(** ** Mount *)

Lemma with_activeElement_same w : with_activeElement (activeElement w) w = w.
Proof. now destruct w. Qed.

(** C10.  When the element that has focus at mount is not the body, the
    effect hands it to [handleElementFocus], the function the [focusin]
    listener calls: the page after mount is the page that a focus event on
    that element produces right after the controls were created.  If the
    element passes the test it is the Target after mount, and the trigger is
    displayed at its top-right corner. *)
Theorem mount_adopts_focused_element key w :
  same_node (activeElement w) (body w) = false ->
  let el := activeElement w in
  let box := getBoundingClientRect w el in
  let s := mount key w in
  page s = handleElementFocus el (installControls w)
  /\ page s
     = page (step (mkSystem (firstRender key) (installControls w) [])
               (FocusIn el))
  /\ (focusable el = true ->
        state_currentElement (page s) = Some el
        /\ triggerShown (page s) = true
        /\ helperButtonRef (page s)
           = Some (button_place (rect_right box + scrollX w - 32)
                     (rect_top box + scrollY w) createHelperButton))
  /\ (focusable el = false -> page s = installControls w).
Proof.
  intros Hne el box s.
  assert (Hp : page s = handleElementFocus el (installControls w)).
  { subst s el. simpl. unfold mountEffect. simpl. now rewrite Hne. }
  split; [exact Hp|]. split.
  - rewrite Hp. simpl.
    change el with (activeElement (installControls w)).
    now rewrite with_activeElement_same.
  - rewrite Hp. unfold handleElementFocus. split; intros Hf; rewrite Hf.
    + destruct (showHelper_shown el (installControls w) createHelperButton
                  createHelperMenu eq_refl eq_refl) as (H1 & H2 & H3 & _).
      auto.
    + reflexivity.
Qed.

Lemma mount_adopts_focused_element_witness :
  let s := mount "k" samplePageFocused in
  (same_node (activeElement samplePageFocused) (body samplePageFocused)
     = false
   /\ focusable (activeElement samplePageFocused) = true)
  /\ (state_currentElement (page s) = Some inputEl
      /\ triggerShown (page s) = true
      /\ helperButtonRef (page s)
         = Some (mkButton "G" false "flex" (Some 368) (Some 150) "9999999")).
Proof.
  intros s.
  split; [split; reflexivity|].
  exact (proj1 (proj2 (proj2
    (mount_adopts_focused_element "k" samplePageFocused eq_refl))) eq_refl).
Defined.

(** ** Traffic: alerts, requests and Busy *)

Lemma closeMenu_traffic w : traffic (closeMenu w) = traffic w.
Proof. open_handlers. unfold traffic. split_cases; reflexivity. Qed.

Lemma on_button_traffic f w : traffic (on_button f w) = traffic w.
Proof. open_handlers. unfold traffic. split_cases; reflexivity. Qed.

Lemma hideHelper_traffic c w : traffic (hideHelper c w) = traffic w.
Proof.
  unfold hideHelper. destruct (_ || _); [reflexivity|].
  now rewrite closeMenu_traffic, on_button_traffic.
Qed.

Lemma handleElementFocus_traffic el w :
  traffic (handleElementFocus el w) = traffic w.
Proof. open_handlers. unfold traffic. split_cases; reflexivity. Qed.

Lemma handleElementBlur_traffic c r w :
  traffic (handleElementBlur c r w) = traffic w.
Proof. open_handlers. unfold traffic. split_cases; reflexivity. Qed.

Lemma handleDocumentClick_traffic c t w :
  traffic (handleDocumentClick c t w) = traffic w.
Proof.
  unfold handleDocumentClick. destruct (_ && _); [|reflexivity].
  destruct (differs _ _); [rewrite hideHelper_traffic|];
    apply closeMenu_traffic.
Qed.

Lemma handleButtonClick_traffic c w :
  traffic (handleButtonClick c w) = traffic w.
Proof. open_handlers. unfold traffic. split_cases; reflexivity. Qed.

Lemma handleScroll_traffic c w : traffic (handleScroll c w) = traffic w.
Proof. open_handlers. unfold traffic. split_cases; reflexivity. Qed.

Lemma blurTimeout_traffic c w : traffic (blurTimeout c w) = traffic w.
Proof.
  unfold blurTimeout. destruct (_ && _); [|reflexivity].
  apply hideHelper_traffic.
Qed.

Lemma step_traffic_without_target s ev :
  currentElement (handlers s) = None -> inflight s = [] ->
  traffic (page (step s ev)) = traffic (page s).
Proof.
  intros Hc Hi. destruct ev; simpl.
  - now rewrite handleElementFocus_traffic.
  - now rewrite handleElementBlur_traffic.
  - apply handleDocumentClick_traffic.
  - apply handleButtonClick_traffic.
  - now rewrite processText_without_target.
  - now rewrite handleScroll_traffic.
  - apply handleScroll_traffic.
  - destruct (timers (page s)) as [|t ts]; [reflexivity|]. simpl.
    now rewrite blurTimeout_traffic.
  - now rewrite Hi, lookup_nil.
Qed.

Lemma step_texts_without_target s ev :
  inflight s = [] -> texts (page (step s ev)) = texts (page s).
Proof.
  intros Hi. destruct ev;
    try (apply step_texts; intros; discriminate).
  simpl. now rewrite Hi, lookup_nil.
Qed.

(** X1.  With the listeners that [mount] installs, whatever is dispatched
    afterwards: no [processText] call is ever suspended, no request is sent,
    no alert is raised, Busy is never set and the text of the page is never
    written.  The menu items call the [processText] of the first render,
    which returns on line 51. *)
Theorem mounted_component_never_requests key w evs :
  let s := run (mount key w) evs in
  inflight s = []
  /\ fetchesOf (log (page s)) = fetchesOf (log w)
  /\ alertsOf (log (page s)) = alertsOf (log w)
  /\ busyCalls (log (page s)) = busyCalls (log w)
  /\ state_isProcessing (page s) = state_isProcessing w
  /\ texts (page s) = texts w.
Proof.
  assert (H : forall s0, currentElement (handlers s0) = None ->
            inflight s0 = [] ->
            inflight (run s0 evs) = []
            /\ traffic (page (run s0 evs)) = traffic (page s0)
            /\ texts (page (run s0 evs)) = texts (page s0)).
  { unfold run. induction evs as [|ev evs IH]; intros s0 Hc Hi; simpl;
      [auto|].
    destruct (IH (step s0 ev)) as (H1 & H2 & H3);
      [now rewrite step_handlers | now apply step_no_transform |].
    split; [exact H1|]. split.
    - now rewrite H2, step_traffic_without_target.
    - now rewrite H3, step_texts_without_target. }
  destruct (H (mount key w) eq_refl eq_refl) as (H1 & H2 & H3).
  simpl in H2, H3.
  assert (Ht : traffic (mountEffect w) = traffic w).
  { unfold mountEffect. destruct (negb _);
      [rewrite handleElementFocus_traffic|]; reflexivity. }
  assert (Hx : texts (mountEffect w) = texts w).
  { unfold mountEffect. destruct (negb _);
      [rewrite handleElementFocus_texts|]; reflexivity. }
  rewrite Ht in H2. rewrite Hx in H3. unfold traffic in H2.
  injection H2 as Ha Hf Hb Hp. cbv zeta. repeat split; assumption.
Qed.

(** ** Requests *)

Lemma processText_finally_traffic c el w :
  alertsOf (log (processText_finally c el w)) = alertsOf (log w)
  /\ fetchesOf (log (processText_finally c el w)) = fetchesOf (log w).
Proof.
  unfold processText_finally.
  assert (H : traffic (setIsProcessing false
                (on_button (button_content "G" false) w))
              = (alertsOf (log w), fetchesOf (log w), busyCalls (log w),
                 false)).
  { pose proof (on_button_traffic (button_content "G" false) w) as Ho.
    unfold traffic in *. injection Ho as Ha Hf Hb _.
    simpl. unfold busyCalls in *. simpl. now rewrite Ha, Hf, Hb. }
  destruct (differs _ _).
  - pose proof (hideHelper_traffic c (setIsProcessing false
                  (on_button (button_content "G" false) w))) as Hh.
    rewrite H in Hh. unfold traffic in Hh. injection Hh as Ha Hf _ _. auto.
  - unfold traffic in H. injection H as Ha Hf _. auto.
Qed.

Lemma processText_catch_fetches c el w :
  fetchesOf (log (processText_catch c el w)) = fetchesOf (log w).
Proof.
  unfold processText_catch.
  now rewrite (proj2 (processText_finally_traffic c el _)).
Qed.

Lemma processText_fetches c prompt w :
  fetchesOf (log (fst (processText c prompt w))) = fetchesOf (log w)
  \/ exists el,
       currentElement c = Some el
       /\ snd (processText c prompt w) = Some (el, AwaitFetch)
       /\ fetchesOf (log (fst (processText c prompt w)))
          = (endpoint (geminiApiKey c), prompt ++ ": " ++ textContentOf w el)
            :: fetchesOf (log w).
Proof.
  unfold processText.
  destruct (currentElement c) as [el|]; [|now left].
  destruct (String.eqb (textContentOf w el) ""); [now left|].
  assert (Hf : fetchesOf (log (closeMenu (on_button (button_content "" true)
                  (setIsProcessing true w)))) = fetchesOf (log w)).
  { pose proof (closeMenu_traffic (on_button (button_content "" true)
                  (setIsProcessing true w))) as H1.
    pose proof (on_button_traffic (button_content "" true)
                  (setIsProcessing true w)) as H2.
    rewrite H2 in H1. unfold traffic in H1. injection H1 as _ H _ _.
    exact H. }
  destruct (String.eqb (geminiApiKey c) ""); simpl.
  - left. rewrite (proj2 (processText_finally_traffic c el _)). exact Hf.
  - right. exists el. repeat split. simpl. now rewrite Hf.
Qed.

(** X2.  Whatever closure the listeners have, one dispatched event sends at
    most one request, and only the activation of a menu item sends one: it
    goes to the endpoint with the closure's key and carries the prompt, a
    colon and a space, and the [textContent] of the closure's element. *)
Theorem requests_only_from_menu_items s ev :
  let before := fetchesOf (log (page s)) in
  let after := fetchesOf (log (page (step s ev))) in
  after = before
  \/ exists i el,
       ev = MenuItemClick i
       /\ currentElement (handlers s) = Some el
       /\ after
          = (endpoint (geminiApiKey (handlers s)),
             promptOf i ++ ": " ++ textContentOf (page s) el) :: before.
Proof.
  simpl. destruct ev; simpl.
  - left. pose proof (handleElementFocus_traffic target
                        (with_activeElement target (page s))) as H.
    unfold traffic in H. now injection H.
  - left. pose proof (handleElementBlur_traffic (handlers s) relatedTarget
                        (with_activeElement (body (page s)) (page s))) as H.
    unfold traffic in H. now injection H.
  - left. pose proof (handleDocumentClick_traffic (handlers s) target
                        (page s)) as H.
    unfold traffic in H. now injection H.
  - left. pose proof (handleButtonClick_traffic (handlers s) (page s)) as H.
    unfold traffic in H. now injection H.
  - destruct (processText_fetches (handlers s) (promptOf i) (page s))
      as [H|(el & Hc & _ & H)];
      destruct (processText _ _ _) as [w1 [k|]]; simpl in *; eauto 8.
  - left. pose proof (handleScroll_traffic (handlers s)
                        (with_scroll x y (page s))) as H.
    unfold traffic in H. now injection H.
  - left. pose proof (handleScroll_traffic (handlers s) (page s)) as H.
    unfold traffic in H. now injection H.
  - left. destruct (timers (page s)) as [|t ts]; [reflexivity|]. simpl.
    pose proof (blurTimeout_traffic t (with_timers ts (page s))) as H.
    unfold traffic in H. now injection H.
  - left. destruct (inflight s !! i) as [[el [|]]|]; destruct r as [fr|jr];
      try reflexivity.
    + destruct fr as [|[|]]; simpl; try apply processText_catch_fetches.
      reflexivity.
    + destruct jr as [|[t|]]; simpl; try apply processText_catch_fetches.
      rewrite (proj2 (processText_finally_traffic _ _ _)).
      unfold assignImprovedText. destruct (isFormControl el); reflexivity.
Qed.

(** ** Across key changes *)




















(** A key change while the menu is open: the cell stays set and the new
    menu is hidden. *)
Example key_change_with_menu_open :
  let s := perform (mounted "" samplePage)
             [Dispatch (FocusIn textareaEl); Dispatch ButtonClick;
              KeyChanges "k"] in
  state_isMenuOpen (doc s) = true /\ menuShown (doc s) = false.
Proof. vm_compute. split; reflexivity. Qed.


(** ** Text *)

(** X4.  Whatever closure the listeners have, the [value] of an element is
    changed by one event only: the settlement of [response.json()] with a
    text, for a call whose element is a text area or an input.  That event
    sets the [value] of that element to the returned text and changes no
    other [value]; every other event changes none. *)
Theorem value_written_only_by_success s ev :
  value (page (step s ev)) = value (page s)
  \/ exists i el t,
       ev = Settles i (JsonSettled (JsonParsed (Some t)))
       /\ inflight s !! i = Some (el, AwaitJson)
       /\ isFormControl el = true
       /\ value (page (step s ev)) = <[node el := t]> (value (page s)).
Proof.
  assert (Hv : forall w1 w2, texts w1 = texts w2 -> value w1 = value w2)
    by (intros w1 w2 H; unfold texts in H; now injection H).
  destruct ev;
    try (left; apply Hv, step_texts; intros; discriminate).
  destruct (inflight s !! i) as [[el [|]]|] eqn:Hi;
    destruct r as [fr|jr]; simpl; rewrite Hi; try (now left).
  - left. destruct fr as [|[|]]; simpl; [|reflexivity|];
      apply Hv, processText_catch_texts.
  - destruct jr as [|[t|]]; simpl;
      try (left; apply Hv, processText_catch_texts).
    rewrite (Hv _ _ (processText_finally_texts (handlers s) el
                       (assignImprovedText el t (page s)))).
    unfold assignImprovedText. destruct (isFormControl el) eqn:Hf;
      [|now left].
    right. exists i, el, t. repeat split; assumption || reflexivity.
Qed.

(** ** The start of a call *)

Lemma processText_start c el prompt w :
  currentElement c = Some el ->
  String.eqb (textContentOf w el) "" = false ->
  processText c prompt w
  = let w3 := closeMenu (on_button (button_content "" true)
                           (setIsProcessing true w)) in
    if String.eqb (geminiApiKey c) "" then
      (processText_finally c el
         (alert "Please set your Gemini API key in the extension settings"
            w3), None)
    else
      (fetch (endpoint (geminiApiKey c))
         (prompt ++ ": " ++ textContentOf w el) w3,
       Some (el, AwaitFetch)).
Proof. intros Hc Ht. unfold processText. now rewrite Hc, Ht. Qed.

Lemma processText_prelude w :
  let w3 := closeMenu (on_button (button_content "" true)
                         (setIsProcessing true w)) in
  alertsOf (log w3) = alertsOf (log w)
  /\ fetchesOf (log w3) = fetchesOf (log w)
  /\ state_isProcessing w3 = true
  /\ menuShown w3 = false
  /\ texts w3 = texts w
  /\ activeElement w3 = activeElement w
  /\ helperButtonRef w3 = button_content "" true <$> helperButtonRef w.
Proof.
  open_handlers. unfold menuShown, texts.
  destruct (helperButtonRef w) eqn:Hb; simpl; rewrite ?Hb;
    destruct (helperMenuRef w) eqn:Hm; simpl; rewrite ?Hb, ?Hm; simpl;
    rewrite ?Hb, ?Hm; repeat split; reflexivity.
Qed.

(** X6.  A call whose closure holds an element with non-empty
    [textContent] and a key sends exactly one request, to the endpoint with
    that key, carrying the prompt, ": " and the text; it raises no alert and
    writes no text.  When it suspends, Busy is set, the trigger shows the
    loading state with empty content and the menu is closed. *)
Theorem processText_sends_one_request c el prompt w b :
  currentElement c = Some el ->
  textContentOf w el <> "" ->
  geminiApiKey c <> "" ->
  helperButtonRef w = Some b ->
  let r := processText c prompt w in
  snd r = Some (el, AwaitFetch)
  /\ fetchesOf (log (fst r))
     = (endpoint (geminiApiKey c), prompt ++ ": " ++ textContentOf w el)
       :: fetchesOf (log w)
  /\ alertsOf (log (fst r)) = alertsOf (log w)
  /\ state_isProcessing (fst r) = true
  /\ helperButtonRef (fst r) = Some (button_content "" true b)
  /\ menuShown (fst r) = false
  /\ texts (fst r) = texts w.
Proof.
  intros Hc Ht Hk Hb. apply String.eqb_neq in Ht, Hk.
  rewrite (processText_start c el prompt w Hc Ht), Hk.
  destruct (processText_prelude w) as (Ha & Hf & Hp & Hm & Hx & _ & Hr).
  rewrite Hb in Hr. cbv zeta. simpl.
  rewrite Ha, Hf. repeat split; assumption.
Qed.

Lemma processText_sends_one_request_witness :
  let c := mkClosure (Some editableDiv) false false "k" in
  let w := page (run (mount "k" samplePage) [FocusIn editableDiv]) in
  (currentElement c = Some editableDiv
   /\ textContentOf w editableDiv <> ""
   /\ geminiApiKey c <> ""
   /\ helperButtonRef w
      = Some (mkButton "G" false "flex" (Some 368) (Some 450) "9999999"))
  /\ snd (processText c clarityPrompt w) = Some (editableDiv, AwaitFetch)
  /\ fetchesOf (log (fst (processText c clarityPrompt w)))
     = [(endpoint "k", clarityPrompt ++ ": helo wrold")].
Proof.
  intros c w.
  assert (Ht : textContentOf w editableDiv <> "")
    by (vm_compute; discriminate).
  assert (Hk : geminiApiKey c <> "") by (vm_compute; discriminate).
  pose proof (processText_sends_one_request c editableDiv clarityPrompt w
                _ eq_refl Ht Hk eq_refl) as (H1 & H2 & _).
  split; [split; [reflexivity | split; [exact Ht | split;
            [exact Hk | reflexivity]]]|].
  split; [exact H1 | exact H2].
Defined.

(** X7.  [processText] returns without touching anything exactly when its
    closure has no element or the element's [textContent] is empty.  In
    every other case it has called [setIsProcessing(true)], once. *)
Theorem processText_noop_iff c prompt w :
  let quiet :=
    currentElement c = None
    \/ exists el, currentElement c = Some el /\ textContentOf w el = "" in
  (processText c prompt w = (w, None) <-> quiet)
  /\ (~ quiet ->
      busyCalls (log (fst (processText c prompt w)))
      = S (busyCalls (log w))).
Proof.
  cbv zeta.
  assert (Hb : forall el,
            currentElement c = Some el ->
            String.eqb (textContentOf w el) "" = false ->
            busyCalls (log (fst (processText c prompt w)))
            = S (busyCalls (log w))).
  { intros el Hc Ht. rewrite (processText_start c el prompt w Hc Ht).
    cbv zeta. destruct (String.eqb (geminiApiKey c) ""); simpl; run_body. }
  split; [split|].
  - intros H. destruct (currentElement c) as [el|] eqn:Hc; [|now left].
    right. exists el. split; [reflexivity|].
    destruct (String.eqb (textContentOf w el) "") eqn:Ht;
      [now apply String.eqb_eq|].
    exfalso. specialize (Hb el eq_refl Ht). rewrite H in Hb. simpl in Hb. lia.
  - intros [Hc|(el & Hc & Ht)].
    + now apply processText_without_target.
    + now apply (processText_empty_textContent c el).
  - intros Hq. destruct (currentElement c) as [el|] eqn:Hc;
      [|exfalso; apply Hq; now left].
    apply (Hb el eq_refl). apply String.eqb_neq. intros Ht. apply Hq.
    right. exists el. auto.
Qed.

Lemma processText_noop_iff_witness :
  let c := mkClosure (Some editableDiv) false false "" in
  let w := page (run (mount "" samplePage) [FocusIn editableDiv]) in
  ~ (currentElement c = None
     \/ exists el,
          currentElement c = Some el /\ textContentOf w el = "")
  /\ busyCalls (log (fst (processText c clarityPrompt w)))
     = S (busyCalls (log w)).
Proof.
  intros c w.
  assert (Hq : ~ (currentElement c = None
                  \/ exists el,
                       currentElement c = Some el
                       /\ textContentOf w el = "")).
  { intros [H|(el & Hc & Ht)]; [discriminate H|].
    injection Hc as <-. vm_compute in Ht. discriminate Ht. }
  split; [exact Hq|].
  exact (proj2 (processText_noop_iff c clarityPrompt w) Hq).
Defined.

(** ** The end of a call *)

Lemma processText_catch_content c el w b :
  helperButtonRef w = Some b ->
  state_isProcessing (processText_catch c el w) = false
  /\ exists b',
       helperButtonRef (processText_catch c el w) = Some b'
       /\ b_textContent b' = "G" /\ b_loading b' = false.
Proof.
  intros Hb. unfold processText_catch.
  split; [apply processText_finally_isProcessing|].
  now apply (processText_finally_content c el _ b).
Qed.

(** X8.  Once a call that got past the two early returns has settled, in
    any of its five ways (no key, request rejected, response not ok, body
    rejected or without text, success), Busy is cleared and the trigger shows
    "G" without the loading class: no settled call leaves the trigger in its
    loading state. *)
Theorem settled_call_ends_idle c el prompt fr jr w b :
  currentElement c = Some el ->
  textContentOf w el <> "" ->
  helperButtonRef w = Some b ->
  let w' := processText_run c prompt fr jr w in
  state_isProcessing w' = false
  /\ exists b',
       helperButtonRef w' = Some b'
       /\ b_textContent b' = "G" /\ b_loading b' = false.
Proof.
  intros Hc Ht Hb. apply String.eqb_neq in Ht.
  unfold processText_run.
  rewrite (processText_start c el prompt w Hc Ht). cbv zeta.
  destruct (processText_prelude w) as (_ & _ & _ & _ & _ & _ & Hr).
  rewrite Hb in Hr. simpl in Hr.
  destruct (String.eqb (geminiApiKey c) "").
  - split; [apply processText_finally_isProcessing|].
    now apply (processText_finally_content c el _ (button_content "" true b)).
  - destruct fr as [|[|]]; simpl;
      try (now apply (processText_catch_content c el _
                        (button_content "" true b))).
    destruct jr as [|[t|]]; simpl;
      try (now apply (processText_catch_content c el _
                        (button_content "" true b))).
    split; [apply processText_finally_isProcessing|].
    apply (processText_finally_content c el _ (button_content "" true b)).
    unfold assignImprovedText. destruct (isFormControl el); exact Hr.
Qed.

Lemma settled_call_ends_idle_witness :
  let c := mkClosure (Some editableDiv) false false "k" in
  let w := page (run (mount "k" samplePage) [FocusIn editableDiv]) in
  let w' := processText_run c grammarPrompt (FetchResponse false)
              JsonRejected w in
  (currentElement c = Some editableDiv
   /\ textContentOf w editableDiv <> ""
   /\ helperButtonRef w
      = Some (mkButton "G" false "flex" (Some 368) (Some 450) "9999999"))
  /\ state_isProcessing w' = false
  /\ exists b',
       helperButtonRef w' = Some b'
       /\ b_textContent b' = "G" /\ b_loading b' = false.
Proof.
  intros c w w'.
  assert (Ht : textContentOf w editableDiv <> "")
    by (vm_compute; discriminate).
  split; [split; [reflexivity | split; [exact Ht | reflexivity]]|].
  exact (settled_call_ends_idle c editableDiv grammarPrompt
           (FetchResponse false) JsonRejected w _ eq_refl Ht eq_refl).
Defined.

Lemma processText_catch_alerts c el w :
  alertsOf (log (processText_catch c el w))
  = "Error processing text. Please try again." :: alertsOf (log w).
Proof. unfold processText_catch. now rewrite processText_finally_alerts. Qed.

(** X9.  A call that got past the two early returns raises the missing-key
    alert when the key is empty, the error alert when the request or the
    body fails, and no alert when it succeeds: never more than one, and never
    both. *)
Theorem one_notification_per_call c el prompt fr jr w :
  currentElement c = Some el ->
  textContentOf w el <> "" ->
  alertsOf (log (processText_run c prompt fr jr w))
  = ((if String.eqb (geminiApiKey c) "" then
        ["Please set your Gemini API key in the extension settings"]
      else if fetchFailed fr || jsonFailed jr then
        ["Error processing text. Please try again."]
      else [])
     ++ alertsOf (log w))%list.
Proof.
  intros Hc Ht. apply String.eqb_neq in Ht.
  unfold processText_run.
  rewrite (processText_start c el prompt w Hc Ht). cbv zeta.
  destruct (processText_prelude w) as (Ha & _).
  destruct (String.eqb (geminiApiKey c) "").
  - rewrite processText_finally_alerts. simpl. now rewrite Ha.
  - destruct fr as [|[|]]; simpl;
      try (rewrite processText_catch_alerts; simpl; now rewrite Ha).
    destruct jr as [|[t|]]; simpl;
      try (rewrite processText_catch_alerts; simpl; now rewrite Ha).
    rewrite processText_finally_alerts.
    unfold assignImprovedText. destruct (isFormControl el); simpl;
      now rewrite Ha.
Qed.

Lemma one_notification_per_call_witness :
  let c := mkClosure (Some editableDiv) false false "k" in
  let w := page (run (mount "k" samplePage) [FocusIn editableDiv]) in
  (currentElement c = Some editableDiv
   /\ textContentOf w editableDiv <> "")
  /\ alertsOf (log (processText_run c grammarPrompt (FetchResponse true)
                      (JsonParsed None) w))
     = ["Error processing text. Please try again."].
Proof.
  intros c w.
  assert (Ht : textContentOf w editableDiv <> "")
    by (vm_compute; discriminate).
  split; [split; [reflexivity | exact Ht]|].
  exact (one_notification_per_call c editableDiv grammarPrompt
           (FetchResponse true) (JsonParsed None) w eq_refl Ht).
Defined.




(** ** Blur *)

(** X11.  [handleElementBlur] hides nothing and clears nothing itself: the
    controls, the state cells and the text are as before.  When focus goes
    into the trigger or the menu the page is unchanged; otherwise (another
    element, or no related target) exactly one timer is started, with a delay
    of 100ms and a callback in the closure of the listener. *)
Theorem blur_is_deferred c r w :
  let w' := handleElementBlur c r w in
  let inside :=
    match r with
    | Some e => inHelperButton e || inHelperMenu e
    | None => false
    end in
  helperButtonRef w' = helperButtonRef w
  /\ helperMenuRef w' = helperMenuRef w
  /\ state_currentElement w' = state_currentElement w
  /\ state_isMenuOpen w' = state_isMenuOpen w
  /\ state_isProcessing w' = state_isProcessing w
  /\ texts w' = texts w
  /\ timers w' = (if inside then timers w else (timers w ++ [c])%list)
  /\ log w' = (if inside then log w else SetTimeout 100 :: log w)
  /\ (inside = true -> w' = w).
Proof.
  unfold handleElementBlur. destruct r as [e|]; cbv zeta;
    [destruct (inHelperButton e || inHelperMenu e)|]; simpl;
    repeat split; try reflexivity; discriminate.
Qed.

(** ** The Target cell *)

Lemma hideHelper_target c w :
  state_currentElement (hideHelper c w) = state_currentElement w.
Proof. open_handlers. split_cases; reflexivity. Qed.

Lemma processText_finally_target c el w :
  state_currentElement (processText_finally c el w) = state_currentElement w.
Proof.
  unfold processText_finally. destruct (differs _ _);
    [rewrite hideHelper_target|]; open_handlers; split_cases; reflexivity.
Qed.

Lemma processText_target c prompt w :
  state_currentElement (fst (processText c prompt w))
  = state_currentElement w.
Proof.
  unfold processText. destruct (currentElement c) as [el|]; [|reflexivity].
  destruct (String.eqb _ ""); [reflexivity|].
  destruct (String.eqb _ ""); simpl; [rewrite processText_finally_target|];
    open_handlers; unfold alert, fetch; split_cases; reflexivity.
Qed.

(** X12.  Whatever closure the listeners have, the Target cell is written
    by one event only, a [focusin] on an element that passes the test of
    [handleElementFocus]: blur, the blur timer, clicks, scrolling and the end
    of a transform hide controls but never clear or replace the Target. *)
Theorem target_changes_only_on_eligible_focus s ev :
  (forall t, ev = FocusIn t -> focusable t = false) ->
  state_currentElement (page (step s ev)) = state_currentElement (page s).
Proof.
  intros Hev. destruct ev; simpl.
  - unfold handleElementFocus. now rewrite (Hev target eq_refl).
  - open_handlers. split_cases; reflexivity.
  - unfold handleDocumentClick. destruct (_ && _); [|reflexivity].
    destruct (differs _ _); [rewrite hideHelper_target|];
      open_handlers; split_cases; reflexivity.
  - open_handlers. split_cases; reflexivity.
  - pose proof (processText_target (handlers s) (promptOf i) (page s)) as H.
    destruct (processText _ _ _) as [w1 [k|]]; exact H.
  - open_handlers. split_cases; reflexivity.
  - open_handlers. split_cases; reflexivity.
  - destruct (timers (page s)) as [|t ts]; [reflexivity|]. simpl.
    unfold blurTimeout. destruct (_ && _); [|reflexivity].
    now rewrite hideHelper_target.
  - destruct (inflight s !! i) as [[el [|]]|]; destruct r as [fr|jr];
      try reflexivity.
    + destruct fr as [|[|]]; simpl; unfold processText_catch;
        rewrite ?processText_finally_target; reflexivity.
    + destruct jr as [|[t|]]; simpl; unfold processText_catch;
        rewrite ?processText_finally_target; try reflexivity.
      unfold assignImprovedText. destruct (isFormControl el); reflexivity.
Qed.

Lemma target_changes_only_on_eligible_focus_witness :
  let s := run (mount "k" samplePage)
             [FocusIn textareaEl; FocusOut None] in
  (forall t, TimerFires = FocusIn t -> focusable t = false)
  /\ triggerShown (page (step s TimerFires)) = false
  /\ state_currentElement (page (step s TimerFires)) = Some textareaEl.
Proof.
  intros s.
  assert (H : forall t, TimerFires = FocusIn t -> focusable t = false)
    by (intros t Ht; discriminate Ht).
  split; [exact H|]. split; [reflexivity|].
  exact (target_changes_only_on_eligible_focus s TimerFires H).
Defined.

(** ** Menu and trigger *)

Lemma closeMenu_hidden w : menuShown (closeMenu w) = false.
Proof.
  unfold closeMenu, menuShown.
  destruct (helperMenuRef w) eqn:Hm; simpl; now rewrite ?Hm.
Qed.

Lemma closeMenu_under w : menuUnderTrigger (closeMenu w).
Proof. unfold menuUnderTrigger. now rewrite closeMenu_hidden. Qed.

Lemma hideHelper_under c w :
  menuUnderTrigger w -> menuUnderTrigger (hideHelper c w).
Proof.
  intros H. unfold hideHelper. destruct (_ || _);
    [exact H | apply closeMenu_under].
Qed.

Lemma updateHelperPosition_under el w :
  menuUnderTrigger w -> menuUnderTrigger (updateHelperPosition el w).
Proof.
  unfold menuUnderTrigger, updateHelperPosition, triggerShown, helperShown.
  destruct (helperButtonRef w) eqn:Hb; [|rewrite Hb; auto].
  destruct (helperMenuRef w) eqn:Hm; simpl; rewrite ?Hb; auto.
Qed.

Lemma button_content_under t l w :
  menuUnderTrigger w -> menuUnderTrigger (on_button (button_content t l) w).
Proof.
  unfold menuUnderTrigger, on_button, menuShown, triggerShown, helperShown.
  destruct (helperButtonRef w) eqn:Hb; simpl; rewrite ?Hb; auto.
Qed.

Lemma processText_finally_under c el w :
  menuUnderTrigger w -> menuUnderTrigger (processText_finally c el w).
Proof.
  intros H. unfold processText_finally.
  apply (button_content_under "G" false) in H.
  destruct (differs _ _); [apply hideHelper_under|]; exact H.
Qed.

Lemma processText_under c prompt w :
  menuUnderTrigger w -> menuUnderTrigger (fst (processText c prompt w)).
Proof.
  intros H. unfold processText.
  destruct (currentElement c) as [el|]; [|exact H].
  destruct (String.eqb _ ""); [exact H|].
  destruct (String.eqb _ ""); simpl.
  - apply processText_finally_under. apply closeMenu_under.
  - apply closeMenu_under.
Qed.

(** X13.  The menu is never on screen without the trigger: every event
    keeps this, whatever closure the listeners have, given that the trigger
    can only be clicked while it is displayed. *)
Theorem menu_never_without_trigger s ev :
  (ev = ButtonClick -> triggerShown (page s) = true) ->
  menuUnderTrigger (page s) ->
  menuUnderTrigger (page (step s ev)).
Proof.
  intros Hclick H. destruct ev; simpl.
  - unfold handleElementFocus, showHelper. destruct (focusable _);
      [apply updateHelperPosition_under|]; exact H.
  - unfold handleElementBlur. destruct relatedTarget as [r|];
      [destruct (_ || _)|]; exact H.
  - unfold handleDocumentClick. destruct (_ && _); [|exact H].
    destruct (differs _ _); [apply hideHelper_under|]; apply closeMenu_under.
  - unfold handleButtonClick. destruct (isMenuOpen _);
      [apply closeMenu_under|].
    intros _. specialize (Hclick eq_refl). revert Hclick.
    unfold openMenu, triggerShown, helperShown.
    destruct (helperMenuRef (page s)); auto.
  - pose proof (processText_under (handlers s) (promptOf i) (page s) H)
      as H1.
    destruct (processText _ _ _) as [w1 [k|]]; exact H1.
  - unfold handleScroll. destruct (currentElement _); [|exact H].
    destruct (helperShown _); [apply updateHelperPosition_under|]; exact H.
  - unfold handleResize. destruct (currentElement _); [|exact H].
    destruct (helperShown _); [apply updateHelperPosition_under|]; exact H.
  - destruct (timers (page s)) as [|t ts]; [exact H|]. simpl.
    unfold blurTimeout. destruct (_ && _); [apply hideHelper_under|];
      exact H.
  - destruct (inflight s !! i) as [[el [|]]|]; destruct r as [fr|jr];
      try exact H.
    + destruct fr as [|[|]]; simpl; unfold processText_catch;
        try apply processText_finally_under; exact H.
    + destruct jr as [|[t|]]; simpl; unfold processText_catch;
        apply processText_finally_under; try exact H.
      unfold assignImprovedText. destruct (isFormControl el); exact H.
Qed.

Lemma menu_never_without_trigger_witness :
  let s := run (mount "k" samplePage) [FocusIn textareaEl] in
  ((ButtonClick = ButtonClick -> triggerShown (page s) = true)
   /\ menuUnderTrigger (page s))
  /\ menuShown (page (step s ButtonClick)) = true
  /\ menuUnderTrigger (page (step s ButtonClick)).
Proof.
  intros s.
  assert (H1 : ButtonClick = ButtonClick -> triggerShown (page s) = true)
    by (intros _; reflexivity).
  assert (H2 : menuUnderTrigger (page s)) by (intros _; reflexivity).
  split; [split; [exact H1 | exact H2]|]. split; [reflexivity|].
  exact (menu_never_without_trigger s ButtonClick H1 H2).
Defined.

(** ** Scrolling and resizing *)

(** X14.  Scrolling and resizing re-place the controls and do nothing
    else: a hidden trigger stays hidden (the page is then unchanged), a
    displayed one stays displayed, and the menu's display, the state cells,
    the text and the log are untouched; [handleResize] does what
    [handleScroll] does. *)
Theorem scroll_and_resize_keep_visibility c w :
  let w' := handleScroll c w in
  handleResize c w = w'
  /\ triggerShown w' = triggerShown w
  /\ menuShown w' = menuShown w
  /\ state_currentElement w' = state_currentElement w
  /\ state_isMenuOpen w' = state_isMenuOpen w
  /\ state_isProcessing w' = state_isProcessing w
  /\ texts w' = texts w
  /\ log w' = log w
  /\ (triggerShown w = false -> w' = w).
Proof.
  cbv zeta. split; [reflexivity|].
  unfold handleScroll.
  destruct (currentElement c) as [el|]; [|repeat split; reflexivity].
  destruct (helperShown w) eqn:Hs; [|repeat split; reflexivity].
  unfold helperShown in Hs.
  destruct (helperButtonRef w) as [b|] eqn:Hb; [|discriminate].
  unfold updateHelperPosition, triggerShown, menuShown, helperShown, texts.
  rewrite Hb.
  destruct (helperMenuRef w) eqn:Hm; simpl; rewrite ?Hb, ?Hm, ?Hs;
    repeat split; try reflexivity; intros; congruence.
Qed.

(** X15.  With the listeners that [mount] installs, scrolling and resizing
    never move the controls: the [handleScroll] and [handleResize] of the
    first render see [currentElement = null] and return. *)
Theorem mounted_scroll_never_repositions key w evs x y :
  let s := run (mount key w) evs in
  page (step s (Scroll x y)) = with_scroll x y (page s)
  /\ page (step s Resize) = page s.
Proof.
  cbv zeta. simpl. unfold handleScroll, handleResize.
  now rewrite mounted_handlers.
Qed.

(** ** Clicks in the document *)

(** X17.  A document click hides the trigger exactly when three things
    hold together: the target is outside both controls, the focused element
    is not the closure's [currentElement], and the closure's [isMenuOpen]
    and [isProcessing] are both [false].  It never shows the trigger, never
    opens the menu, and leaves the Target cell and the text alone. *)
Theorem document_click_hide_rule c target w :
  let w' := handleDocumentClick c target w in
  let outside := negb (inHelperButton target) && negb (inHelperMenu target) in
  let hides :=
    outside && differs (activeElement w) (currentElement c)
    && negb (isMenuOpen c || isProcessing c) in
  triggerShown w' = (if hides then false else triggerShown w)
  /\ menuShown w' = (if outside then false else menuShown w)
  /\ state_currentElement w' = state_currentElement w
  /\ texts w' = texts w.
Proof.
  cbv zeta. unfold handleDocumentClick, hideHelper.
  destruct (negb (inHelperButton target) && negb (inHelperMenu target));
    simpl; [|repeat split; reflexivity].
  assert (Ha : activeElement (closeMenu w) = activeElement w)
    by (unfold closeMenu; destruct (helperMenuRef w); reflexivity).
  rewrite Ha.
  destruct (differs (activeElement w) (currentElement c)); simpl;
    [destruct (isMenuOpen c || isProcessing c); simpl|];
    unfold triggerShown, menuShown, helperShown, closeMenu, on_button, texts;
    destruct (helperButtonRef w) eqn:Hb; simpl; rewrite ?Hb;
    destruct (helperMenuRef w) eqn:Hm;
    repeat (progress (simpl; rewrite ?Hb, ?Hm));
    repeat split; reflexivity.
Qed.

(** ** Mount without a Target *)

(** X18.  When the body has focus at mount, or the focused element does not
    pass the test, the effect only creates the two controls: both hidden, the
    trigger showing "G", no Target, nothing logged. *)
Theorem mount_without_eligible_focus key w :
  same_node (activeElement w) (body w) = true
  \/ focusable (activeElement w) = false ->
  let s := mount key w in
  page s = installControls w
  /\ helperButtonRef (page s) = Some (mkButton "G" false "none" None None "")
  /\ triggerShown (page s) = false
  /\ menuShown (page s) = false
  /\ state_currentElement (page s) = state_currentElement w
  /\ log (page s) = log w.
Proof.
  intros H. cbv zeta.
  assert (Hp : page (mount key w) = installControls w).
  { simpl. unfold mountEffect. simpl. destruct H as [H|H];
      [now rewrite H|].
    destruct (negb _); [|reflexivity].
    unfold handleElementFocus. now rewrite H. }
  rewrite Hp. repeat split; reflexivity.
Qed.

Lemma mount_without_eligible_focus_witness :
  let s := mount "k" samplePage in
  (same_node (activeElement samplePage) (body samplePage) = true
   \/ focusable (activeElement samplePage) = false)
  /\ page s = installControls samplePage
  /\ triggerShown (page s) = false.
Proof.
  intros s.
  assert (H : same_node (activeElement samplePage) (body samplePage) = true
              \/ focusable (activeElement samplePage) = false)
    by (left; reflexivity).
  pose proof (mount_without_eligible_focus "k" samplePage H)
    as (H1 & _ & H3 & _).
  split; [exact H|]. split; [exact H1 | exact H3].
Defined.
